(** * The C# source generator of Cantera's [sourcegen]

    A shallow embedding of
    [interfaces/sourcegen/sourcegen/csharp/_SourceGenerator.py]:
    the conversion of parsed CLib signatures into C# functions
    ([_convert_func]), the rendering of [DllImport] declarations
    ([_get_function_text]) and the scaffolding of properties
    ([_get_property_text]).

    Python values are modelled as follows.
    - [str] is [string]; identifiers and type names of CLib headers are ASCII,
      so one character is one byte.
    - a [dict] that is only looked up is a [gmap]; [_type_map], which the
      code iterates over, is an association list in declaration order.
    - [normalize] of [_helpers.py] is a parameter of the rendering functions.
    - an exception is a value of [exn]; a computation that may raise returns a
      [result].  [_convert_func] mutates [self._known_funcs], so it returns
      the generator after the call next to its result: an exception leaves
      the generator as it was when it was raised. *)

From Stdlib Require Import Ascii.
From Stdlib Require String.
From stdpp Require Import base option list gmap strings.

(** ** Python string primitives *)

Module Py.

(** [s.startswith(pre)] *)
Fixpoint startswith (s pre : string) {struct pre} : bool :=
  match pre, s with
  | EmptyString, _ => true
  | String a pre', String b s' => Ascii.eqb a b && startswith s' pre'
  | String _ _, EmptyString => false
  end.

(** [s.endswith(suf)]: some tail of [s] is [suf]. *)
Fixpoint endswith (s suf : string) : bool :=
  String.eqb s suf ||
  match s with
  | EmptyString => false
  | String _ s' => endswith s' suf
  end.

(** [s.split(sep, 1)] unpacked into two variables: the text before the
    first [sep] and the text after it; [None] when [sep] does not occur
    (the list has one element and the unpacking raises). *)
Fixpoint split_once (sep : ascii) (s : string) : option (string * string) :=
  match s with
  | EmptyString => None
  | String c s' =>
      if Ascii.eqb c sep then Some (EmptyString, s')
      else '(l, r) ← split_once sep s'; Some (String c l, r)
  end.

(** [c in s] *)
Fixpoint has_char (c : ascii) (s : string) : bool :=
  match s with
  | EmptyString => false
  | String a s' => Ascii.eqb a c || has_char c s'
  end.

(** [sep.join(l)] *)
Fixpoint join (sep : string) (l : list string) : string :=
  match l with
  | [] => ""
  | [x] => x
  | x :: l' => x +:+ sep +:+ join sep l'
  end.

Definition is_upper (c : ascii) : bool :=
  let n := nat_of_ascii c in Nat.leb 65 n && Nat.leb n 90.
Definition is_lower (c : ascii) : bool :=
  let n := nat_of_ascii c in Nat.leb 97 n && Nat.leb n 122.
Definition upper (c : ascii) : ascii :=
  if is_lower c then ascii_of_nat (nat_of_ascii c - 32) else c.
Definition lower (c : ascii) : ascii :=
  if is_upper c then ascii_of_nat (nat_of_ascii c + 32) else c.

Fixpoint lower_all (s : string) : string :=
  match s with
  | EmptyString => EmptyString
  | String c s' => String (lower c) (lower_all s')
  end.

(** [s.capitalize()] on ASCII text: first character upper-cased, the
    others lower-cased. *)
Definition capitalize (s : string) : string :=
  match s with
  | EmptyString => EmptyString
  | String c s' => String (upper c) (lower_all s')
  end.

(** The newline character. *)
Definition nl : string := String (ascii_of_nat 10) EmptyString.

(** [' ' * n] *)
Fixpoint spaces (n : nat) : string :=
  match n with
  | 0 => EmptyString
  | S n' => String " "%char (spaces n')
  end.

End Py.

(** ** Exceptions and results *)

Inductive exn : Type :=
  | ValueError (msg : string)
  | KeyError (key : string)
  | IndexError (msg : string).

Inductive result (A : Type) : Type :=
  | Ok (a : A)
  | Raise (e : exn).
Arguments Ok {A} a.
Arguments Raise {A} e.

#[global] Instance result_ret : MRet result := fun A a => Ok a.
#[global] Instance result_bind : MBind result := fun A B f m =>
  match m with
  | Ok a => f a
  | Raise e => Raise e
  end.

(** [d[k]] on a dictionary: [KeyError(k)] when the key is absent. *)
Definition getitem {V : Type} (d : gmap string V) (k : string) : result V :=
  match d !! k with
  | Some v => Ok v
  | None => Raise (KeyError k)
  end.

Definition index_error : exn := IndexError "list index out of range".

(** ** Data model ([_types.py] and [_CsFunc]) *)

(** [Param]: one parameter, C type and name. *)
Record Param : Type := mkParam { p_type : string; p_name : string }.

(** [Func]: a parsed CLib signature. *)
Record Func : Type := mkFunc {
  f_ret_type : string;
  f_name : string;
  f_params : list Param
}.

(** [_CsFunc]: a C# method. *)
Record _CsFunc : Type := mk_CsFunc {
  ret_type : string;
  name : string;
  params : list Param;
  del_clazz : option string
}.

(** The configuration dictionary, with its three recognised keys. *)
Record Config : Type := mkConfig {
  handle_crosswalk : gmap string string;
  derived_handles : list (string * string);
  classes : list (string * list (string * string))
}.

(** The generator object: [self._config] and [self._known_funcs]. *)
Record SourceGenerator : Type := mkSourceGenerator {
  _config : Config;
  _known_funcs : gmap string _CsFunc
}.

(** [SourceGenerator(out_dir, config)]: the registry starts empty.  The
    output directory only matters to the file writing, which is left out. *)
Definition init (config : Config) : SourceGenerator :=
  {| _config := config; _known_funcs := ∅ |}.

(** ** Type crosswalks *)

Definition _type_map : list (string * string) :=
  [ ("const char*", "string");
    ("const double*", "double[]");
    ("size_t", "nuint");
    ("char*", "byte*") ].

Definition _prop_type_map : gmap string string :=
  <["double*" := "double[]"]> (<["byte*" := "string"]> ∅).

(** The loop [for c_type, cs_type in table.items(): if t == c_type: t =
    cs_type; break]: the first entry whose key is [t] replaces it. *)
Fixpoint crosswalk (table : list (string * string)) (t : string) : string :=
  match table with
  | [] => t
  | (c_type, cs_type) :: table' =>
      if String.eqb t c_type then cs_type else crosswalk table' t
  end.

Definition map_type (t : string) : string := crosswalk _type_map t.

(** ** [_convert_func] *)

(** [re.match('^set_[A-Z]{2}$', method)]: [$] also matches just before a
    final newline. *)
Definition is_thermo_pair_setter (method : string) : bool :=
  match method with
  | String "s" (String "e" (String "t" (String "_" (String a (String b rest))))) =>
      Py.is_upper a && Py.is_upper b &&
      (String.eqb rest "" || String.eqb rest Py.nl)
  | _ => false
  end.

Definition arity_error (name : string) : exn :=
  ValueError ("Cannot scaffold " +:+ name +:+ " with " +:+
              "more than one array of doubles!").

(** Lines 106-118: the handle of a class replaces the return type of a
    constructor and the type of the first parameter of an instance method;
    a destructor records it as [del_clazz].  The result is the return type,
    the parameter list and [del_clazz] as they enter the type mapping. *)
Definition substitute_handle (config : Config) (clazz method : string)
    (ret : string) (ps : list Param)
  : result (string * list Param * option string) :=
  if negb (String.eqb clazz "ct") then
    h ← getitem (handle_crosswalk config) clazz;
    let handle_clazz := h +:+ "Handle" in
    if Py.startswith method "del" then Ok (ret, ps, Some handle_clazz)
    else if Py.startswith method "new" then Ok (handle_clazz, ps, None)
    else
      match ps with
      | [] => Raise index_error
      | p0 :: rest => Ok (ret, mkParam handle_clazz (p_name p0) :: rest, None)
      end
  else Ok (ret, ps, None).

(** The type a parameter has when line 137 tests it. *)
Definition mapped_type (p : Param) : string := map_type (p_type p).

(** [param_type == 'double*' and method.startswith('set')] *)
Definition is_setter_array (method : string) (p : Param) : bool :=
  String.eqb (mapped_type p) "double*" && Py.startswith method "set".

(** Lines 127-154: the loop over the parameters, with the counter
    [setter_double_arrays_count] as it stands before [ps]. *)
Fixpoint convert_params (name clazz method : string) (count : nat)
    (ps : list Param) : result (list Param) :=
  match ps with
  | [] => Ok []
  | p :: ps' =>
      let param_type := mapped_type p in
      if is_setter_array method p then
        let count := S count in
        if Nat.ltb 1 count then Raise (arity_error name)
        else
          let param_type :=
            if String.eqb clazz "thermo" && is_thermo_pair_setter method
            then "(double, double)*" else "double[]" in
          ps'' ← convert_params name clazz method count ps';
          Ok (mkParam param_type (p_name p) :: ps'')
      else
        ps'' ← convert_params name clazz method count ps';
        Ok (mkParam param_type (p_name p) :: ps'')
  end.

(** The pure part of [_convert_func]: everything before the registration. *)
Definition convert (config : Config) (parsed : Func) : result _CsFunc :=
  match Py.split_once "_" (f_name parsed) with
  | None => Raise (ValueError "not enough values to unpack (expected 2, got 1)")
  | Some (clazz, method) =>
      '(ret, ps, del) ←
        substitute_handle config clazz method (f_ret_type parsed) (f_params parsed);
      let ret := map_type ret in
      ps ← convert_params (f_name parsed) clazz method 0 ps;
      Ok (mk_CsFunc ret (f_name parsed) ps del)
  end.

(** [self._known_funcs[name] = func] *)
Definition register (self : SourceGenerator) (func : _CsFunc) : SourceGenerator :=
  {| _config := _config self;
     _known_funcs := <[name func := func]> (_known_funcs self) |}.

Definition _convert_func (self : SourceGenerator) (parsed : Func)
  : result _CsFunc * SourceGenerator :=
  match convert (_config self) parsed with
  | Ok func => (Ok func, register self func)
  | Raise e => (Raise e, self)
  end.

(** ** Rendering *)

Section Rendering.

(** [normalize(code, indent=0, trim_first=False)] of [_helpers.py] lays out
    a block of text; the generator uses it as a black box. *)
Variable normalize : string → nat → bool → string.

Definition _prolog : string :=
  normalize (Py.nl +:+ Py.spaces 8 +:+ "[DllImport(LibFile)]" +:+
             Py.nl +:+ Py.spaces 8 +:+ "public static extern" +:+
             Py.nl +:+ Py.spaces 4) 0 false.

(** [', '.join(p.p_type + ' ' + p.name for p in params)] *)
Definition _join_params (ps : list Param) : string :=
  Py.join ", " (map (fun p => p_type p +:+ " " +:+ p_name p) ps).

(** [any(p.p_type.endswith('*') for p in params)] *)
Definition is_unsafe (ps : list Param) : bool :=
  existsb (fun p => Py.endswith (p_type p) "*") ps.

Definition _get_function_text (function : _CsFunc) : string :=
  let params_text := _join_params (params function) in
  if is_unsafe (params function) then
    _prolog +:+ " unsafe " +:+ ret_type function +:+ " " +:+ name function
      +:+ "(" +:+ params_text +:+ ");"
  else
    _prolog +:+ " " +:+ ret_type function +:+ " " +:+ name function
      +:+ "(" +:+ params_text +:+ ");".

(** One line of a triple-quoted template: a newline, the indentation of
    the source file, the text. *)
Definition line (indent : nat) (text : string) : string :=
  Py.nl +:+ Py.spaces indent +:+ text.

(** The [set => ...] accessor appended when a setter is registered. *)
Definition setter_text (setter : option _CsFunc) : string :=
  match setter with
  | Some s =>
      line 20 "set => InteropUtil.CheckReturn(" +:+
      line 24 ("LibCantera." +:+ name s +:+ "(_handle, value));")
  | None => ""
  end.

Definition closing_text : string := line 16 "}" +:+ line 12 "".

Definition scalar_property_text (prop_type cs_name : string)
    (getter : _CsFunc) (setter : option _CsFunc) : string :=
  line 16 ("public " +:+ prop_type +:+ " " +:+ cs_name) +:+
  line 16 "{" +:+
  line 20 "get => InteropUtil.CheckReturn(" +:+
  line 24 ("LibCantera." +:+ name getter +:+ "(_handle));") +:+
  setter_text setter +:+ closing_text.

Definition string_property_text (cs_name p_type : string)
    (getter : _CsFunc) (setter : option _CsFunc) : string :=
  line 16 ("public unsafe string " +:+ cs_name) +:+
  line 16 "{" +:+
  line 20 "get => InteropUtil.GetString(40, (length, buffer) =>" +:+
  line 24 ("LibCantera." +:+ name getter +:+ "(_handle, (" +:+ p_type
           +:+ ") length, buffer));") +:+
  line 12 "" +:+
  setter_text setter +:+ closing_text.

Definition unsupported_property_type (prop_type : string) : exn :=
  ValueError ("Unable to scaffold properties of type " +:+ prop_type +:+ "!").

(** Lines 163-173: the getter of a property and the type of the property.
    A function registered as [clazz_cname] is the getter and its return
    type the property type; otherwise the getter is [clazz_getCname] and
    the type comes from its last parameter through [_prop_type_map]. *)
Definition resolve_getter (known : gmap string _CsFunc)
    (clazz c_name : string) : result (_CsFunc * string) :=
  match known !! (clazz +:+ "_" +:+ c_name) with
  | Some getter => Ok (getter, ret_type getter)
  | None =>
      getter ← getitem known (clazz +:+ "_get" +:+ Py.capitalize c_name);
      match last (params getter) with
      | None => Raise index_error
      | Some p =>
          prop_type ← getitem _prop_type_map (p_type p);
          Ok (getter, prop_type)
      end
  end.

(** Lines 177-216: the accessor text for a resolved property. *)
Definition property_text (prop_type cs_name : string)
    (getter : _CsFunc) (setter : option _CsFunc) : result string :=
  if String.eqb prop_type "int" || String.eqb prop_type "double" then
    Ok (normalize (scalar_property_text prop_type cs_name getter setter) 0 false)
  else if String.eqb prop_type "string" then
    match params getter !! 1 with
    | None => Raise index_error
    | Some p =>
        Ok (normalize (string_property_text cs_name (p_type p) getter setter)
              0 false)
    end
  else Raise (unsupported_property_type prop_type).

Definition _get_property_text (self : SourceGenerator)
    (clazz c_name cs_name : string) : result string :=
  '(getter, prop_type) ← resolve_getter (_known_funcs self) clazz c_name;
  let setter :=
    _known_funcs self !! (clazz +:+ "_set" +:+ Py.capitalize c_name) in
  property_text prop_type cs_name getter setter.

(** [generate_source], up to the text of the declarations:
    [cs_funcs = [self._convert_func(f) for f in funcs]], where the first
    exception ends the comprehension and keeps what was registered. *)
Fixpoint convert_all (self : SourceGenerator) (funcs : list Func)
  : result (list _CsFunc) * SourceGenerator :=
  match funcs with
  | [] => (Ok [], self)
  | f :: funcs' =>
      match _convert_func self f with
      | (Ok c, self') =>
          match convert_all self' funcs' with
          | (Ok cs, self'') => (Ok (c :: cs), self'')
          | (Raise e, self'') => (Raise e, self'')
          end
      | (Raise e, self') => (Raise e, self')
      end
  end.

(** The declaration of every function of a unit, in order. *)
Definition declarations (self : SourceGenerator) (funcs : list Func)
  : result (list string) :=
  cs_funcs ← (convert_all self funcs).1;
  Ok (map _get_function_text cs_funcs).

(** [functions_text = '\n\n'.join(...)] *)
Definition functions_text (self : SourceGenerator) (funcs : list Func)
  : result string :=
  texts ← declarations self funcs;
  Ok (Py.join (Py.nl +:+ Py.nl) texts).

End Rendering.

(** ** Notions used in the statements *)

(** The parameters whose type, when line 137 tests it, is ['double*']. *)
Definition double_pointers (ps : list Param) : list Param :=
  filter (fun p => mapped_type p = "double*") ps.

(** The type that line 154 stores for a parameter of a conversion that
    raises nothing. *)
Definition converted_type (clazz method : string) (p : Param) : string :=
  if is_setter_array method p then
    if String.eqb clazz "thermo" && is_thermo_pair_setter method
    then "(double, double)*" else "double[]"
  else mapped_type p.

Definition converted_param (clazz method : string) (p : Param) : Param :=
  mkParam (converted_type clazz method p) (p_name p).

(** The parameters line 137 counts: those of [double_pointers] when the
    method is a setter, none otherwise. *)
Definition setter_arrays (method : string) (ps : list Param) : list Param :=
  filter (fun p => is_setter_array method p = true) ps.

(** A layout function that leaves the code as it is, to evaluate the
    rendering on examples. *)
Definition layout_as_is (code : string) (indent : nat) (trim_first : bool)
  : string := code.

(** An example configuration. *)
Definition example_config : Config :=
  {| handle_crosswalk :=
       <["thermo" := "ThermoPhase"]>
         (<["shape" := "Shape"]> (<["thing" := "Thing"]> ∅));
     derived_handles := [];
     classes := [] |}.

(** The registry after the conversion of a getter that returns a C string. *)
Definition example_string_getter : SourceGenerator :=
  (_convert_func (init example_config)
     (mkFunc "const char*" "thermo_name"
        [mkParam "int" "n"; mkParam "size_t" "len"])).2.

(** The registry after the conversion of a getter that fills a buffer. *)
Definition example_name_getter : SourceGenerator :=
  (_convert_func (init example_config)
     (mkFunc "int" "thermo_getName"
        [mkParam "int" "n"; mkParam "size_t" "lennm"; mkParam "char*" "nm"])).2.


(** ** Handles, files and the two entry points *)

(** The truth value of an [Optional[str]]: [None] and the empty string are
    false. *)
Definition truthy (o : option string) : bool :=
  match o with
  | Some s => negb (String.eqb s "")
  | None => false
  end.

(** [f'''class {derived} : {base} {{ }}'''] *)
Definition _get_derived_handle_text (derived : string * string) : string :=
  "class " +:+ derived.1 +:+ " : " +:+ derived.2 +:+ " { }".

(** [handles = [(name, del_clazz) for _, name, _, del_clazz in cs_funcs
    if del_clazz]] *)
Fixpoint handles_of (cs_funcs : list _CsFunc) : list (string * string) :=
  match cs_funcs with
  | [] => []
  | f :: cs_funcs' =>
      if truthy (del_clazz f)
      then (name f, default "" (del_clazz f)) :: handles_of cs_funcs'
      else handles_of cs_funcs'
  end.

(** Every entry of the registry is stored under its own name. *)
Definition registry_wf (known : gmap string _CsFunc) : Prop :=
  ∀ k f, known !! k = Some f → name f = k.

Section Generation.

Variable normalize : string → nat → bool → string.

(** [get_preamble()] of [_helpers.py]: the text of the licence header. *)
Variable get_preamble : string.

(** [self._out_dir], which nothing assigns after [__init__]. *)
Variable _out_dir : string.

(** [_preamble = '/*\n' + get_preamble() + '*/'] *)
Definition _preamble : string := "/*" +:+ Py.nl +:+ get_preamble +:+ "*/".

Definition _get_base_handle_text (handle : string * string) : string :=
  let '(name, del_clazz) := handle in
  normalize
    (line 12 ("class " +:+ del_clazz +:+ " : CanteraHandle") +:+
     line 12 "{" +:+
     line 16 "protected override bool ReleaseHandle() =>" +:+
     line 20 ("LibCantera." +:+ name +:+ "(Value) == InteropConsts.Success;") +:+
     line 12 "}" +:+
     line 8 "") 0 false.

Definition interop_text (functions_text : string) : string :=
  normalize
    (line 12 (normalize _preamble 12 false) +:+
     line 0 "" +:+
     line 12 "using System.Runtime.InteropServices;" +:+
     line 0 "" +:+
     line 12 "namespace Cantera.Interop;" +:+
     line 0 "" +:+
     line 12 "static partial class LibCantera" +:+
     line 12 "{" +:+
     line 16 (normalize functions_text 16 true) +:+
     line 12 "}" +:+
     line 8 "") 0 false.

Definition handles_file_text (handles_text : string) : string :=
  normalize
    (line 12 (normalize _preamble 12 false) +:+
     line 0 "" +:+
     line 12 "namespace Cantera.Interop;" +:+
     line 0 "" +:+
     line 12 (normalize handles_text 12 true) +:+
     line 8 "") 0 false.

Definition interop_path (incl_file : string) : string :=
  _out_dir +:+ "Interop.LibCantera." +:+ incl_file +:+ ".g.cs".

Definition handles_path (incl_file : string) : string :=
  _out_dir +:+ "Interop.Handles." +:+ incl_file +:+ ".g.cs".

(** [generate_source(incl_file, funcs)], with [incl_file.name] for the
    directory entry.  The files on disk are a map from path to content;
    [open(path, 'w')] followed by [write] replaces the content of [path];
    the directory is taken to be writable, so [open] does not raise.
    The result is the exception raised, if any, the generator and the files
    after the call. *)
Definition generate_source (self : SourceGenerator) (files : gmap string string)
    (incl_file : string) (funcs : list Func)
  : result unit * SourceGenerator * gmap string string :=
  match convert_all self funcs with
  | (Raise e, self') => (Raise e, self', files)
  | (Ok cs_funcs, self') =>
      let functions_text :=
        Py.join (Py.nl +:+ Py.nl) (map (_get_function_text normalize) cs_funcs) in
      let files := <[interop_path incl_file := interop_text functions_text]> files in
      let handles := handles_of cs_funcs in
      match handles with
      | [] => (Ok (), self', files)
      | _ =>
          let handles_text :=
            Py.join (Py.nl +:+ Py.nl) (map _get_base_handle_text handles) in
          (Ok (), self',
           <[handles_path incl_file := handles_file_text handles_text]> files)
      end
  end.

Definition derived_handles_file_text (derived_handles : string) : string :=
  normalize
    (line 12 (normalize _preamble 12 false) +:+
     line 0 "" +:+
     line 12 "namespace Cantera.Interop;" +:+
     line 0 "" +:+
     line 12 derived_handles +:+
     line 8 "") 0 false.

Definition clazz_text (name props_text : string) : string :=
  normalize
    (line 16 (normalize _preamble 16 false) +:+
     line 0 "" +:+
     line 16 "using Cantera.Interop;" +:+
     line 0 "" +:+
     line 16 "namespace Cantera;" +:+
     line 0 "" +:+
     line 16 ("public partial class " +:+ name +:+ " : IDisposable") +:+
     line 16 "{" +:+
     line 20 ("readonly " +:+ name +:+ "Handle _handle;") +:+
     line 0 "" +:+
     line 20 (normalize props_text 20 true) +:+
     line 0 "" +:+
     line 20 "public void Dispose() =>" +:+
     line 24 "_handle.Dispose();" +:+
     line 16 "}" +:+
     line 12 "") 0 false.

Definition derived_handles_path : string := _out_dir +:+ "Interop.Handles.g.cs".

Definition clazz_path (name : string) : string := _out_dir +:+ name +:+ ".g.cs".

(** [(self._get_property_text(clazz, c_name, cs_name) for (c_name, cs_name)
    in props.items())] as [join] consumes it: the texts in order, or the
    first exception. *)
Fixpoint property_texts (self : SourceGenerator) (clazz : string)
    (props : list (string * string)) : result (list string) :=
  match props with
  | [] => Ok []
  | (c_name, cs_name) :: props' =>
      text ← _get_property_text normalize self clazz c_name cs_name;
      texts ← property_texts self clazz props';
      Ok (text :: texts)
  end.

(** The loop of [finalize] over [self._config['classes'].items()]. *)
Fixpoint finalize_classes (self : SourceGenerator) (files : gmap string string)
    (classes : list (string * list (string * string)))
  : result unit * gmap string string :=
  match classes with
  | [] => (Ok (), files)
  | (clazz, props) :: classes' =>
      match getitem (handle_crosswalk (_config self)) clazz with
      | Raise e => (Raise e, files)
      | Ok name =>
          match property_texts self clazz props with
          | Raise e => (Raise e, files)
          | Ok texts =>
              let props_text := Py.join (Py.nl +:+ Py.nl) texts in
              finalize_classes self
                (<[clazz_path name := clazz_text name props_text]> files)
                classes'
          end
      end
  end.

(** [finalize()]: the file of the derived handles, then one file per
    configured class.  The registry is only read. *)
Definition finalize (self : SourceGenerator) (files : gmap string string)
  : result unit * gmap string string :=
  let derived_handles :=
    Py.join (Py.nl +:+ Py.nl)
      (map _get_derived_handle_text (derived_handles (_config self))) in
  let files :=
    <[derived_handles_path := derived_handles_file_text derived_handles]> files in
  finalize_classes self files (classes (_config self)).

End Generation.

(** [any(c.isupper() for c in s)] on ASCII text. *)
Fixpoint has_upper (s : string) : bool :=
  match s with
  | EmptyString => false
  | String c s' => Py.is_upper c || has_upper s'
  end.

(** A signature is a destructor of a class: its name splits into a class
    other than ['ct'] and a method that starts with ["del"]. *)
Definition is_destructor (parsed : Func) : bool :=
  match Py.split_once "_" (f_name parsed) with
  | Some (clazz, method) =>
      negb (String.eqb clazz "ct") && Py.startswith method "del"
  | None => false
  end.

(** The registry after the conversion of a getter and a setter of a scalar
    and of a getter that fills an array. *)
Definition example_properties : SourceGenerator :=
  (convert_all (init example_config)
     [mkFunc "double" "thermo_pressure" [mkParam "int" "n"];
      mkFunc "int" "thermo_setPressure"
        [mkParam "int" "n"; mkParam "double" "p"];
      mkFunc "int" "thermo_getMolefractions"
        [mkParam "int" "n"; mkParam "size_t" "len"; mkParam "double*" "x"]]).2.

(** The generator with the classes of its configuration replaced. *)
Definition with_classes (self : SourceGenerator)
    (classes : list (string * list (string * string))) : SourceGenerator :=
  {| _config :=
       {| handle_crosswalk := handle_crosswalk (_config self);
          derived_handles := derived_handles (_config self);
          classes := classes |};
     _known_funcs := _known_funcs self |}.
(** * Properties *)

(** ** Strings *)

Lemma app_cons (a : ascii) (s t : string) :
  String a s +:+ t = String a (s +:+ t).
Proof. reflexivity. Qed.

Lemma app_empty_l (t : string) : "" +:+ t = t.
Proof. reflexivity. Qed.

Lemma app_assoc_str (s t u : string) : (s +:+ t) +:+ u = s +:+ (t +:+ u).
Proof.
  induction s as [|a s IH]; [reflexivity|].
  rewrite !app_cons. by rewrite IH.
Qed.

Lemma length_app_str (s t : string) :
  String.length (s +:+ t) = String.length s + String.length t.
Proof.
  induction s as [|a s IH]; [reflexivity|].
  rewrite app_cons. simpl. by rewrite IH.
Qed.

Lemma startswith_app (pre t : string) : Py.startswith (pre +:+ t) pre = true.
Proof.
  induction pre as [|a pre IH]; [reflexivity|].
  rewrite app_cons. simpl. rewrite Ascii.eqb_refl. exact IH.
Qed.

Lemma startswith_spec (s pre : string) :
  Py.startswith s pre = true ↔ ∃ t, s = pre +:+ t.
Proof.
  split.
  - revert s. induction pre as [|a pre IH]; intros s H.
    + by exists s.
    + destruct s as [|b s]; [discriminate|]. simpl in H.
      apply andb_prop in H as [Hab Hs].
      apply Ascii.eqb_eq in Hab as ->.
      destruct (IH _ Hs) as [t ->]. by exists t.
  - intros [t ->]. apply startswith_app.
Qed.

Lemma endswith_app (pre suf : string) : Py.endswith (pre +:+ suf) suf = true.
Proof.
  induction pre as [|a pre IH].
  - rewrite app_empty_l. destruct suf; simpl; by rewrite ?Ascii.eqb_refl, ?String.eqb_refl.
  - rewrite app_cons. simpl. rewrite IH. apply orb_true_r.
Qed.

Lemma endswith_spec (s suf : string) :
  Py.endswith s suf = true ↔ ∃ pre, s = pre +:+ suf.
Proof.
  split.
  - induction s as [|a s IH]; intros H.
    + destruct suf; [by exists ""|discriminate].
    + change (Py.endswith (String a s) suf)
        with (String.eqb (String a s) suf || Py.endswith s suf) in H.
      apply orb_prop in H as [H|H].
      * apply String.eqb_eq in H as <-. by exists "".
      * destruct (IH H) as [pre ->]. by exists (String a pre).
  - intros [pre ->]. apply endswith_app.
Qed.

Lemma split_once_app (sep : ascii) (l r : string) :
  Py.has_char sep l = false → Py.split_once sep (l +:+ String sep r) = Some (l, r).
Proof.
  induction l as [|a l IH]; intros Hl.
  - rewrite app_empty_l. simpl. by rewrite Ascii.eqb_refl.
  - rewrite app_cons. simpl in *. apply orb_false_elim in Hl as [Ha Hl].
    rewrite Ha, (IH Hl). reflexivity.
Qed.

Lemma split_once_inv (sep : ascii) (s l r : string) :
  Py.split_once sep s = Some (l, r) →
  s = l +:+ String sep r ∧ Py.has_char sep l = false.
Proof.
  revert l. induction s as [|a s IH]; intros l; simpl; [discriminate|].
  destruct (Ascii.eqb a sep) eqn:Ha.
  - intros [= <- <-]. apply Ascii.eqb_eq in Ha as ->. done.
  - destruct (Py.split_once sep s) as [[l' r']|]; simpl; [|discriminate].
    intros [= <- <-]. destruct (IH l' eq_refl) as [-> Hl].
    split; [done|]. simpl. by rewrite Ha.
Qed.

Lemma split_once_spec (sep : ascii) (s l r : string) :
  Py.split_once sep s = Some (l, r) ↔
  s = l +:+ String sep r ∧ Py.has_char sep l = false.
Proof.
  split; [apply split_once_inv|]. intros [-> Hl]. by apply split_once_app.
Qed.

(** ** The type crosswalk *)

Lemma map_type_cases (t : string) :
  map_type t = t ∨ map_type t ∈ ["string"; "double[]"; "nuint"; "byte*"].
Proof.
  unfold map_type, _type_map, crosswalk.
  repeat (destruct (String.eqb t _); [right; repeat constructor|]). by left.
Qed.

Lemma map_type_double_pointer (t : string) :
  map_type t = "double*" ↔ t = "double*".
Proof.
  split; [|by intros ->].
  destruct (map_type_cases t) as [-> | H]; [done|].
  intros E. rewrite E in H.
  repeat (apply elem_of_cons in H as [H|H]; [discriminate|]).
  by apply elem_of_nil in H.
Qed.

Lemma handle_neq (h k : string) :
  Py.endswith k "Handle" = false → h +:+ "Handle" ≠ k.
Proof. intros Hk <-. by rewrite endswith_app in Hk. Qed.

Lemma map_type_handle (h : string) : map_type (h +:+ "Handle") = h +:+ "Handle".
Proof.
  unfold map_type, _type_map, crosswalk.
  repeat match goal with
  | |- context [String.eqb ?s ?k] =>
      destruct (String.eqb_spec s k) as [E|_];
      [by apply handle_neq in E|]
  end.
  reflexivity.
Qed.

Lemma handle_not_setter_array (method h n : string) :
  is_setter_array method (mkParam (h +:+ "Handle") n) = false.
Proof.
  unfold is_setter_array, mapped_type. simpl. rewrite map_type_handle.
  destruct (String.eqb_spec (h +:+ "Handle") "double*") as [E|_]; [|done].
  by apply handle_neq in E.
Qed.

(** ** The loop over the parameters *)

Lemma setter_arrays_setter (method : string) (ps : list Param) :
  Py.startswith method "set" = true → setter_arrays method ps = double_pointers ps.
Proof.
  intros Hset. unfold setter_arrays, double_pointers.
  apply list_filter_iff. intros p. unfold is_setter_array.
  rewrite Hset, andb_true_r. apply String.eqb_eq.
Qed.

Lemma setter_arrays_other (method : string) (ps : list Param) :
  Py.startswith method "set" = false → setter_arrays method ps = [].
Proof.
  intros Hset. unfold setter_arrays. induction ps as [|p ps IH]; [done|].
  rewrite filter_cons_False; [done|].
  unfold is_setter_array. rewrite Hset, andb_false_r. done.
Qed.

(** The loop raises exactly when the counter passes one; otherwise every
    parameter is converted on its own. *)
Lemma convert_params_spec (name clazz method : string) (count : nat)
    (ps : list Param) :
  count ≤ 1 →
  convert_params name clazz method count ps =
    if Nat.ltb 1 (count + length (setter_arrays method ps))
    then Raise (arity_error name)
    else Ok (map (converted_param clazz method) ps).
Proof.
  revert count. induction ps as [|p ps IH]; intros count Hc.
  - simpl. rewrite Nat.add_0_r.
    destruct (Nat.ltb_spec 1 count); [lia|done].
  - simpl. unfold setter_arrays, converted_param, converted_type.
    destruct (is_setter_array method p) eqn:Hp.
    + rewrite filter_cons_True by done. simpl.
      destruct count as [|count].
      * simpl. rewrite (IH 1) by lia. fold (setter_arrays method ps).
        destruct (Nat.ltb_spec 1 (1 + length (setter_arrays method ps)));
          destruct (Nat.ltb_spec 1 (S (length (setter_arrays method ps))));
          try lia; done.
      * destruct (Nat.ltb_spec 1 (S (S count))); [|lia].
        destruct (Nat.ltb_spec 1 (S count + S (length
          (filter (λ p0, is_setter_array method p0 = true) ps)))); [done|lia].
    + rewrite filter_cons_False by (rewrite Hp; done).
      rewrite (IH count Hc). fold (setter_arrays method ps).
      by destruct (Nat.ltb 1 _).
Qed.

(** ** [_convert_func] through its stages *)

Lemma convert_spec (config : Config) (parsed : Func) (clazz method ret : string)
    (ps : list Param) (del : option string) :
  Py.split_once "_" (f_name parsed) = Some (clazz, method) →
  substitute_handle config clazz method (f_ret_type parsed) (f_params parsed)
    = Ok (ret, ps, del) →
  convert config parsed =
    if Nat.ltb 1 (length (setter_arrays method ps))
    then Raise (arity_error (f_name parsed))
    else Ok (mk_CsFunc (map_type ret) (f_name parsed)
               (map (converted_param clazz method) ps) del).
Proof.
  intros Hsplit Hsub. unfold convert. rewrite Hsplit, Hsub. simpl.
  rewrite convert_params_spec by lia. simpl.
  by destruct (Nat.ltb 1 _).
Qed.

Lemma convert_func_ok (self : SourceGenerator) (parsed : Func) (func : _CsFunc) :
  convert (_config self) parsed = Ok func →
  _convert_func self parsed = (Ok func, register self func).
Proof. intros H. unfold _convert_func. by rewrite H. Qed.

Lemma convert_func_raise (self : SourceGenerator) (parsed : Func) (e : exn) :
  convert (_config self) parsed = Raise e →
  _convert_func self parsed = (Raise e, self).
Proof. intros H. unfold _convert_func. by rewrite H. Qed.


Lemma startswith_del_not_set (method : string) :
  Py.startswith method "del" = true → Py.startswith method "set" = false.
Proof. intros [t ->]%startswith_spec. reflexivity. Qed.

Lemma startswith_new_not_set (method : string) :
  Py.startswith method "new" = true → Py.startswith method "set" = false.
Proof. intros [t ->]%startswith_spec. reflexivity. Qed.

Lemma startswith_new_not_del (method : string) :
  Py.startswith method "new" = true → Py.startswith method "del" = false.
Proof. intros [t ->]%startswith_spec. reflexivity. Qed.

Lemma substitute_handle_class (config : Config) (clazz method ret h : string)
    (ps : list Param) :
  clazz ≠ "ct" →
  handle_crosswalk config !! clazz = Some h →
  substitute_handle config clazz method ret ps =
    if Py.startswith method "del" then Ok (ret, ps, Some (h +:+ "Handle"))
    else if Py.startswith method "new" then Ok (h +:+ "Handle", ps, None)
    else match ps with
         | [] => Raise index_error
         | p0 :: rest =>
             Ok (ret, mkParam (h +:+ "Handle") (p_name p0) :: rest, None)
         end.
Proof.
  intros Hct Hh. unfold substitute_handle, getitem.
  apply String.eqb_neq in Hct. rewrite Hct, Hh. reflexivity.
Qed.

(** ** Unknown classes *)

(** C6.  A signature whose class prefix is not ['ct'] and is not a key of
    [handle_crosswalk] makes [_convert_func] raise the [KeyError] of the
    lookup at line 107, and the registry is the one before the call. *)
Theorem convert_func_unknown_class (self : SourceGenerator) (parsed : Func)
    (clazz method : string) :
  Py.split_once "_" (f_name parsed) = Some (clazz, method) →
  clazz ≠ "ct" →
  handle_crosswalk (_config self) !! clazz = None →
  _convert_func self parsed = (Raise (KeyError clazz), self).
Proof.
  intros Hsplit Hct Hnone. apply convert_func_raise.
  unfold convert, substitute_handle, getitem. rewrite Hsplit.
  apply String.eqb_neq in Hct. rewrite Hct, Hnone. reflexivity.
Qed.

Lemma convert_func_unknown_class_witness :
  let self := init example_config in
  let parsed := mkFunc "int" "kin_nReactions" [mkParam "int" "n"] in
  _convert_func self parsed = (Raise (KeyError "kin"), self) ∧
  _known_funcs self !! "kin_nReactions" = None.
Proof.
  split; [|reflexivity].
  apply (convert_func_unknown_class _ _ "kin" "nReactions");
    [reflexivity | discriminate | reflexivity].
Defined.

(** ** Destructors and constructors *)


(** C5.  For a signature of a class other than ['ct'] that
    [handle_crosswalk] maps to [h], the handle type being [h + 'Handle']:
    a method that starts with ["del"] is converted to a function whose
    [del_clazz] is the handle type and whose return type is the native
    return type sent through the type map only; a method that starts with
    ["new"] is converted to a function whose return type is the handle
    type.  Neither conversion can raise. *)
Theorem convert_func_del_new (self : SourceGenerator) (parsed : Func)
    (clazz method h : string) :
  Py.split_once "_" (f_name parsed) = Some (clazz, method) →
  clazz ≠ "ct" →
  handle_crosswalk (_config self) !! clazz = Some h →
  (Py.startswith method "del" = true →
     ∃ func, _convert_func self parsed = (Ok func, register self func) ∧
       del_clazz func = Some (h +:+ "Handle") ∧
       ret_type func = map_type (f_ret_type parsed) ∧
       name func = f_name parsed) ∧
  (Py.startswith method "new" = true →
     ∃ func, _convert_func self parsed = (Ok func, register self func) ∧
       ret_type func = h +:+ "Handle" ∧
       del_clazz func = None ∧
       name func = f_name parsed).
Proof.
  intros Hsplit Hct Hh. split; intros Hm.
  - eexists. split; [apply convert_func_ok|].
    + erewrite convert_spec; [|exact Hsplit|].
      2: { rewrite (substitute_handle_class _ _ _ _ h) by done.
           rewrite Hm. reflexivity. }
      rewrite setter_arrays_other by by apply startswith_del_not_set.
      reflexivity.
    + done.
  - eexists. split; [apply convert_func_ok|].
    + erewrite convert_spec; [|exact Hsplit|].
      2: { rewrite (substitute_handle_class _ _ _ _ h) by done.
           rewrite (startswith_new_not_del _ Hm), Hm. reflexivity. }
      rewrite setter_arrays_other by by apply startswith_new_not_set.
      reflexivity.
    + simpl. by rewrite map_type_handle.
Qed.

Lemma convert_func_del_new_witness :
  let self := init example_config in
  (∃ func,
     _convert_func self (mkFunc "int" "shape_del" [mkParam "int" "n"])
       = (Ok func, register self func) ∧
     del_clazz func = Some "ShapeHandle" ∧ ret_type func = "int" ∧
     name func = "shape_del") ∧
  (∃ func,
     _convert_func self (mkFunc "int" "shape_new" [mkParam "const char*" "id"])
       = (Ok func, register self func) ∧
     ret_type func = "ShapeHandle" ∧ del_clazz func = None ∧
     name func = "shape_new").
Proof.
  split.
  - apply (convert_func_del_new (init example_config)
             (mkFunc "int" "shape_del" [mkParam "int" "n"]) "shape" "del" "Shape");
      [reflexivity | discriminate | reflexivity | reflexivity].
  - apply (convert_func_del_new (init example_config)
             (mkFunc "int" "shape_new" [mkParam "const char*" "id"])
             "shape" "new" "Shape");
      [reflexivity | discriminate | reflexivity | reflexivity].
Defined.

(** ** Global functions *)

(** C7.  A signature of the global prefix ['ct'] is converted without any
    use of the handles: the conversion is the type map on the return type
    and on every parameter, followed by the setter array rule (a
    ['double*'] parameter of a setter becomes ['double[]'], a second one
    raises), for any number of parameters, the empty list included; no
    [del_clazz] is set and the outcome is the same under every
    configuration. *)
Theorem convert_func_global (self : SourceGenerator) (parsed : Func)
    (method : string) :
  Py.split_once "_" (f_name parsed) = Some ("ct", method) →
  _convert_func self parsed =
    (if Py.startswith method "set" &&
        Nat.ltb 1 (length (double_pointers (f_params parsed)))
     then (Raise (arity_error (f_name parsed)), self)
     else
       let func :=
         mk_CsFunc (map_type (f_ret_type parsed)) (f_name parsed)
           (map (fun p =>
                   mkParam (if is_setter_array method p
                            then "double[]" else mapped_type p) (p_name p))
                (f_params parsed))
           None in
       (Ok func, register self func)) ∧
  ∀ config' : Config,
    (_convert_func (mkSourceGenerator config' (_known_funcs self)) parsed).1
      = (_convert_func self parsed).1.
Proof.
  intros Hsplit.
  assert (∀ config, convert config parsed =
    if Py.startswith method "set" &&
       Nat.ltb 1 (length (double_pointers (f_params parsed)))
    then Raise (arity_error (f_name parsed))
    else Ok (mk_CsFunc (map_type (f_ret_type parsed)) (f_name parsed)
           (map (fun p =>
                   mkParam (if is_setter_array method p
                            then "double[]" else mapped_type p) (p_name p))
                (f_params parsed)) None)) as Hconv.
  { intros config. erewrite convert_spec; [|exact Hsplit|reflexivity].
    destruct (Py.startswith method "set") eqn:Hset.
    - rewrite setter_arrays_setter by done. simpl.
      destruct (Nat.ltb 1 _); reflexivity.
    - rewrite setter_arrays_other by done. simpl.
      reflexivity. }
  split.
  - unfold _convert_func. rewrite Hconv. by destruct (_ && _).
  - intros config'. unfold _convert_func. simpl. rewrite !Hconv.
    by destruct (_ && _).
Qed.

Lemma convert_func_global_witness :
  let self := init example_config in
  let parsed :=
    mkFunc "int" "ct_setLogWriter" [mkParam "double*" "w"; mkParam "size_t" "n"] in
  (_convert_func self parsed).1 =
    Ok (mk_CsFunc "int" "ct_setLogWriter"
          [mkParam "double[]" "w"; mkParam "nuint" "n"] None).
Proof.
  intros self parsed.
  destruct (convert_func_global self parsed "setLogWriter" eq_refl) as [-> _].
  reflexivity.
Defined.

(** ** Instance methods *)

Lemma converted_param_name (clazz method : string) (ps : list Param) :
  map p_name (map (converted_param clazz method) ps) = map p_name ps.
Proof. rewrite map_map. reflexivity. Qed.

Lemma converted_param_handle (clazz method h n : string) :
  converted_param clazz method (mkParam (h +:+ "Handle") n)
    = mkParam (h +:+ "Handle") n.
Proof.
  unfold converted_param, converted_type.
  rewrite handle_not_setter_array. unfold mapped_type. simpl.
  by rewrite map_type_handle.
Qed.

Lemma setter_arrays_handle (method h n : string) (rest : list Param) :
  setter_arrays method (mkParam (h +:+ "Handle") n :: rest)
    = setter_arrays method rest.
Proof.
  unfold setter_arrays. rewrite filter_cons_False; [done|].
  by rewrite handle_not_setter_array.
Qed.

(** The conversion of an instance method of a registered class. *)
Lemma convert_instance_method (config : Config) (parsed : Func)
    (X method h : string) (p0 : Param) (rest : list Param) :
  Py.split_once "_" (f_name parsed) = Some (X, method) →
  X ≠ "ct" →
  handle_crosswalk config !! X = Some h →
  Py.startswith method "del" = false →
  Py.startswith method "new" = false →
  f_params parsed = p0 :: rest →
  convert config parsed =
    if Nat.ltb 1 (length (setter_arrays method rest))
    then Raise (arity_error (f_name parsed))
    else Ok (mk_CsFunc (map_type (f_ret_type parsed)) (f_name parsed)
               (mkParam (h +:+ "Handle") (p_name p0)
                  :: map (converted_param X method) rest) None).
Proof.
  intros Hsplit Hct Hh Hdel Hnew Hps.
  erewrite convert_spec; [|exact Hsplit|].
  2: { rewrite (substitute_handle_class _ _ _ _ h) by done.
       rewrite Hdel, Hnew, Hps. reflexivity. }
  rewrite setter_arrays_handle. simpl. by rewrite converted_param_handle.
Qed.

(** C1, as amended.  For a signature whose name splits at its first
    underscore into a class [X] other than ['ct'] that [handle_crosswalk]
    maps to [h] and a method that starts with neither ["del"] nor ["new"],
    which has a first parameter and does not trip the array guard of the
    loop (the method is no setter, or at most one parameter after the first
    has type ['double*']): [_convert_func] returns and registers a function
    whose parameter 0 has the type [h + 'Handle'] and its original name, and
    whose parameters have the names of the signature in the same order. *)
Theorem convert_func_instance_method (self : SourceGenerator) (parsed : Func)
    (X method h : string) (p0 : Param) (rest : list Param) :
  Py.split_once "_" (f_name parsed) = Some (X, method) →
  X ≠ "ct" →
  handle_crosswalk (_config self) !! X = Some h →
  Py.startswith method "del" = false →
  Py.startswith method "new" = false →
  f_params parsed = p0 :: rest →
  Py.startswith method "set" = false ∨ length (double_pointers rest) ≤ 1 →
  ∃ func, _convert_func self parsed = (Ok func, register self func) ∧
    params func !! 0 = Some (mkParam (h +:+ "Handle") (p_name p0)) ∧
    map p_name (params func) = map p_name (f_params parsed).
Proof.
  intros Hsplit Hct Hh Hdel Hnew Hps Hguard.
  eexists. split; [apply convert_func_ok|].
  - rewrite (convert_instance_method _ _ X method h p0 rest) by done.
    replace (Nat.ltb 1 (length (setter_arrays method rest))) with false;
      [reflexivity|].
    symmetry. apply Nat.ltb_ge. destruct Hguard as [Hset|Hle].
    + rewrite setter_arrays_other by done. simpl. lia.
    + destruct (Py.startswith method "set") eqn:Hset.
      * by rewrite setter_arrays_setter.
      * rewrite setter_arrays_other by done. simpl. lia.
  - simpl. split; [done|]. rewrite Hps. simpl.
    by rewrite converted_param_name.
Qed.

Lemma convert_func_instance_method_witness :
  let self := init example_config in
  let parsed :=
    mkFunc "int" "thing_setValues"
      [mkParam "int" "n"; mkParam "size_t" "len"; mkParam "double*" "v"] in
  ∃ func, _convert_func self parsed = (Ok func, register self func) ∧
    params func !! 0 = Some (mkParam "ThingHandle" "n") ∧
    map p_name (params func) = ["n"; "len"; "v"].
Proof.
  apply (convert_func_instance_method (init example_config)
           (mkFunc "int" "thing_setValues"
              [mkParam "int" "n"; mkParam "size_t" "len"; mkParam "double*" "v"])
           "thing" "setValues" "Thing" (mkParam "int" "n")
           [mkParam "size_t" "len"; mkParam "double*" "v"]);
    [reflexivity | discriminate | reflexivity | reflexivity | reflexivity
    | reflexivity | right; vm_compute; lia].
Defined.

(** C1 as it was stated fails: the signature below satisfies every
    condition of the claim (class ['thing'] is registered, the method
    starts with neither ["del"] nor ["new"]), yet the loop raises at its
    second ['double*'] parameter, so no function with a rewritten
    parameter 0 is returned or registered. *)
Lemma convert_func_instance_method_counterexample :
  let self := init example_config in
  let parsed :=
    mkFunc "int" "thing_setPair"
      [mkParam "int" "n"; mkParam "double*" "a"; mkParam "double*" "b"] in
  Py.split_once "_" (f_name parsed) = Some ("thing", "setPair") ∧
  "thing" ≠ "ct" ∧
  handle_crosswalk (_config self) !! "thing" = Some "Thing" ∧
  Py.startswith "setPair" "del" = false ∧
  Py.startswith "setPair" "new" = false ∧
  _convert_func self parsed = (Raise (arity_error "thing_setPair"), self).
Proof. repeat split; try reflexivity; discriminate. Qed.

(** An instance method without parameters has no parameter 0 to rewrite:
    line 117 raises [IndexError]. *)
Example convert_func_no_parameters :
  let self := init example_config in
  _convert_func self (mkFunc "int" "thing_reset" []) = (Raise index_error, self).
Proof. reflexivity. Qed.

(** The handle replaces the type of the first parameter before the loop
    looks at it: a ['double*'] in that position is not counted as an
    array. *)
Example convert_func_first_parameter_not_counted :
  (_convert_func (init example_config)
     (mkFunc "int" "thing_setPair"
        [mkParam "double*" "a"; mkParam "double*" "b"])).1
  = Ok (mk_CsFunc "int" "thing_setPair"
          [mkParam "ThingHandle" "a"; mkParam "double[]" "b"] None).
Proof. reflexivity. Qed.

(** ** Setter arrays *)

Section Occurrences.
Context {A : Type} (P : A → Prop) `{!∀ x, Decision (P x)}.

Lemma first_occurrence (l : list A) :
  0 < length (filter P l) →
  ∃ pre x post, l = pre ++ x :: post ∧ filter P pre = [] ∧ P x.
Proof.
  induction l as [|y l IH]; simpl; [lia|]. intros Hlen.
  destruct (decide (P y)) as [Hy|Hy].
  - exists [], y, l. done.
  - rewrite filter_cons_False in Hlen by done.
    destruct (IH Hlen) as (pre & x & post & -> & Hpre & Hx).
    exists (y :: pre), x, post. split; [done|].
    by rewrite filter_cons_False.
Qed.

Lemma second_occurrence (l : list A) :
  1 < length (filter P l) →
  ∃ pre x post, l = pre ++ x :: post ∧ length (filter P pre) = 1 ∧ P x.
Proof.
  induction l as [|y l IH]; simpl; [lia|]. intros Hlen.
  destruct (decide (P y)) as [Hy|Hy].
  - rewrite filter_cons_True in Hlen by done. simpl in Hlen.
    destruct (first_occurrence l) as (pre & x & post & -> & Hpre & Hx); [lia|].
    exists (y :: pre), x, post. split; [done|].
    rewrite filter_cons_True by done. simpl. by rewrite Hpre.
  - rewrite filter_cons_False in Hlen by done.
    destruct (IH Hlen) as (pre & x & post & -> & Hpre & Hx).
    exists (y :: pre), x, post. split; [done|].
    by rewrite filter_cons_False.
Qed.
End Occurrences.

Lemma converted_param_lookup (clazz method : string) (ps : list Param)
    (i : nat) (p : Param) :
  ps !! i = Some p →
  map (converted_param clazz method) ps !! i
    = Some (converted_param clazz method p).
Proof. intros H. by rewrite list_lookup_fmap, H. Qed.

Lemma converted_param_setter_array (clazz method : string) (p : Param) :
  Py.startswith method "set" = true →
  mapped_type p = "double*" →
  converted_param clazz method p =
    mkParam (if String.eqb clazz "thermo" && is_thermo_pair_setter method
             then "(double, double)*" else "double[]") (p_name p).
Proof.
  intros Hset Hp. unfold converted_param, converted_type, is_setter_array.
  by rewrite Hp, Hset.
Qed.

(** C2.  Let the handle substitution of lines 106-118 succeed and leave the
    parameters [ps], and let the method name start with ["set"].
    - If more than one parameter of [ps] has the mapped type ['double*'],
      [_convert_func] raises the array error and the registry is the one
      before the call; the loop gets through the parameters before the
      second such parameter and raises at it, whatever follows.
    - If exactly one has, [_convert_func] returns and registers a function
      in which that parameter has the type ['double[]'], unless the class is
      ['thermo'] and the method a pair setter. *)
Theorem convert_func_setter_arrays (self : SourceGenerator) (parsed : Func)
    (clazz method ret : string) (ps : list Param) (del : option string) :
  Py.split_once "_" (f_name parsed) = Some (clazz, method) →
  Py.startswith method "set" = true →
  substitute_handle (_config self) clazz method
    (f_ret_type parsed) (f_params parsed) = Ok (ret, ps, del) →
  (1 < length (double_pointers ps) →
     _convert_func self parsed = (Raise (arity_error (f_name parsed)), self) ∧
     ∃ pre p post, ps = pre ++ p :: post ∧
       length (double_pointers pre) = 1 ∧ mapped_type p = "double*" ∧
       convert_params (f_name parsed) clazz method 0 pre
         = Ok (map (converted_param clazz method) pre) ∧
       ∀ post', convert_params (f_name parsed) clazz method 0 (pre ++ p :: post')
         = Raise (arity_error (f_name parsed))) ∧
  (length (double_pointers ps) = 1 →
     ∃ func, _convert_func self parsed = (Ok func, register self func) ∧
       ∀ i p, ps !! i = Some p → mapped_type p = "double*" →
         ¬ (clazz = "thermo" ∧ is_thermo_pair_setter method = true) →
         params func !! i = Some (mkParam "double[]" (p_name p))).
Proof.
  intros Hsplit Hset Hsub. split; intros Hlen.
  - split.
    + apply convert_func_raise. rewrite (convert_spec _ _ _ _ _ _ _ Hsplit Hsub).
      rewrite setter_arrays_setter by done.
      by destruct (Nat.ltb_spec 1 (length (double_pointers ps))); [|lia].
    + destruct (second_occurrence _ _ Hlen) as (pre & p & post & -> & Hpre & Hp).
      change (length (double_pointers pre) = 1) in Hpre.
      exists pre, p, post. repeat split; [done..| |].
      * rewrite convert_params_spec by lia.
        rewrite setter_arrays_setter by done. by rewrite Hpre.
      * intros post'. rewrite convert_params_spec by lia.
        rewrite setter_arrays_setter by done. unfold double_pointers.
        rewrite filter_app, filter_cons_True by done.
        rewrite length_app. fold (double_pointers pre). rewrite Hpre. simpl.
        reflexivity.
  - eexists. split; [apply convert_func_ok|].
    + rewrite (convert_spec _ _ _ _ _ _ _ Hsplit Hsub).
      rewrite setter_arrays_setter by done. rewrite Hlen. reflexivity.
    + intros i p Hi Hp Hpair. simpl.
      rewrite (converted_param_lookup _ _ _ _ _ Hi).
      rewrite converted_param_setter_array by done.
      destruct (String.eqb_spec clazz "thermo") as [->|_]; [|done].
      destruct (is_thermo_pair_setter method); [|done].
      by destruct Hpair.
Qed.

Lemma convert_func_setter_arrays_witness :
  let self := init example_config in
  _convert_func self
    (mkFunc "int" "thing_setPair"
       [mkParam "int" "n"; mkParam "double*" "a"; mkParam "double*" "b"])
    = (Raise (arity_error "thing_setPair"), self) ∧
  ∃ func,
    _convert_func self
      (mkFunc "int" "thing_setValues"
         [mkParam "int" "n"; mkParam "size_t" "len"; mkParam "double*" "v"])
      = (Ok func, register self func) ∧
    params func !! 2 = Some (mkParam "double[]" "v").
Proof.
  intros self. split.
  - apply (convert_func_setter_arrays self
             (mkFunc "int" "thing_setPair"
                [mkParam "int" "n"; mkParam "double*" "a"; mkParam "double*" "b"])
             "thing" "setPair" "int"
             [mkParam "ThingHandle" "n"; mkParam "double*" "a";
              mkParam "double*" "b"] None eq_refl eq_refl eq_refl).
    vm_compute. lia.
  - destruct (convert_func_setter_arrays self
             (mkFunc "int" "thing_setValues"
                [mkParam "int" "n"; mkParam "size_t" "len"; mkParam "double*" "v"])
             "thing" "setValues" "int"
             [mkParam "ThingHandle" "n"; mkParam "size_t" "len";
              mkParam "double*" "v"] None eq_refl eq_refl eq_refl)
      as [_ Hone].
    destruct (Hone eq_refl) as (func & Hfunc & Hparams).
    exists func. split; [exact Hfunc|].
    apply (Hparams 2 (mkParam "double*" "v") eq_refl eq_refl).
    intros [Hthermo _]. discriminate Hthermo.
Defined.

(** ** Thermo pair setters *)

Lemma is_thermo_pair_setter_two_upper (a b : ascii) :
  is_thermo_pair_setter ("set_" +:+ String a (String b ""))
    = Py.is_upper a && Py.is_upper b.
Proof.
  change ("set_" +:+ String a (String b ""))
    with (String "s" (String "e" (String "t" (String "_"
            (String a (String b "")))))).
  unfold is_thermo_pair_setter. simpl. apply andb_true_r.
Qed.

(** C3, as amended.  For a signature of the class ['thermo'] (registered
    in [handle_crosswalk], with its handle parameter first) whose method is
    ["set_"] followed by exactly two upper-case letters, when at most one
    parameter after the first has the mapped type ['double*']:
    [_convert_func] returns and registers a function in which that
    parameter has the type ['(double, double)*'], which is not the array
    type ['double[]'] of the general setter rule. *)
Theorem convert_func_thermo_pair (self : SourceGenerator) (parsed : Func)
    (a b : ascii) (h : string) (p0 : Param) (rest : list Param) :
  Py.split_once "_" (f_name parsed)
    = Some ("thermo", "set_" +:+ String a (String b "")) →
  Py.is_upper a = true →
  Py.is_upper b = true →
  handle_crosswalk (_config self) !! "thermo" = Some h →
  f_params parsed = p0 :: rest →
  length (double_pointers rest) ≤ 1 →
  ∃ func, _convert_func self parsed = (Ok func, register self func) ∧
    ∀ i p, f_params parsed !! S i = Some p → mapped_type p = "double*" →
      params func !! S i = Some (mkParam "(double, double)*" (p_name p)) ∧
      params func !! S i ≠ Some (mkParam "double[]" (p_name p)).
Proof.
  intros Hsplit Ha Hb Hh Hps Hlen.
  set (method := "set_" +:+ String a (String b "")) in *.
  assert (Py.startswith method "set" = true) as Hset by reflexivity.
  eexists. split; [apply convert_func_ok|].
  - rewrite (convert_instance_method _ _ "thermo" method h p0 rest)
      by (done || reflexivity).
    rewrite setter_arrays_setter by done.
    by destruct (Nat.ltb_spec 1 (length (double_pointers rest))); [lia|].
  - intros i p Hi Hp. simpl.
    rewrite Hps in Hi. simpl in Hi.
    rewrite (converted_param_lookup _ _ _ _ _ Hi).
    rewrite converted_param_setter_array by done.
    unfold method. rewrite is_thermo_pair_setter_two_upper, Ha, Hb.
    split; [reflexivity|discriminate].
Qed.

Lemma convert_func_thermo_pair_witness :
  let self := init example_config in
  let parsed :=
    mkFunc "int" "thermo_set_TP" [mkParam "int" "n"; mkParam "double*" "vals"] in
  ∃ func, _convert_func self parsed = (Ok func, register self func) ∧
    params func !! 1 = Some (mkParam "(double, double)*" "vals").
Proof.
  intros self parsed.
  destruct (convert_func_thermo_pair self parsed "T" "P" "ThermoPhase"
              (mkParam "int" "n") [mkParam "double*" "vals"]
              eq_refl eq_refl eq_refl eq_refl eq_refl)
    as (func & Hfunc & Hparams).
  - vm_compute. lia.
  - exists func. split; [exact Hfunc|].
    apply (Hparams 0 (mkParam "double*" "vals") eq_refl eq_refl).
Defined.

(** C3 as it was stated fails: in the thermo pair setter below both
    ['double*'] parameters fall under the claim, yet the loop raises at the
    second and no parameter of the signature is converted to a pair. *)
Lemma convert_func_thermo_pair_counterexample :
  let self := init example_config in
  let parsed :=
    mkFunc "int" "thermo_set_TP"
      [mkParam "int" "n"; mkParam "double*" "t"; mkParam "double*" "p"] in
  Py.split_once "_" (f_name parsed) = Some ("thermo", "set_TP") ∧
  is_thermo_pair_setter "set_TP" = true ∧
  mapped_type (mkParam "double*" "t") = "double*" ∧
  mapped_type (mkParam "double*" "p") = "double*" ∧
  _convert_func self parsed = (Raise (arity_error "thermo_set_TP"), self).
Proof. repeat split; reflexivity. Qed.

(** ** Property accessors *)

Section Properties.
Variable normalize : string → nat → bool → string.

Lemma property_text_scalar (prop_type cs_name : string) (getter : _CsFunc)
    (setter : option _CsFunc) :
  prop_type = "int" ∨ prop_type = "double" →
  property_text normalize prop_type cs_name getter setter =
    Ok (normalize (scalar_property_text prop_type cs_name getter setter) 0 false).
Proof. by intros [-> | ->]. Qed.

Lemma property_text_string (cs_name : string) (getter : _CsFunc)
    (setter : option _CsFunc) :
  property_text normalize "string" cs_name getter setter =
    match params getter !! 1 with
    | Some p =>
        Ok (normalize
              (string_property_text cs_name (p_type p) getter setter) 0 false)
    | None => Raise index_error
    end.
Proof. reflexivity. Qed.

Lemma property_text_unsupported (prop_type cs_name : string)
    (getter : _CsFunc) (setter : option _CsFunc) :
  prop_type ≠ "int" → prop_type ≠ "double" → prop_type ≠ "string" →
  property_text normalize prop_type cs_name getter setter =
    Raise (unsupported_property_type prop_type).
Proof.
  intros Hi Hd Hs. unfold property_text.
  apply String.eqb_neq in Hi, Hd, Hs. by rewrite Hi, Hd, Hs.
Qed.

Lemma get_property_text_resolved (self : SourceGenerator)
    (clazz c_name cs_name prop_type : string) (getter : _CsFunc) :
  resolve_getter (_known_funcs self) clazz c_name = Ok (getter, prop_type) →
  _get_property_text normalize self clazz c_name cs_name =
    property_text normalize prop_type cs_name getter
      (_known_funcs self !! (clazz +:+ "_set" +:+ Py.capitalize c_name)).
Proof. intros H. unfold _get_property_text. by rewrite H. Qed.

Lemma resolve_getter_scalar (known : gmap string _CsFunc)
    (clazz c_name : string) (getter : _CsFunc) :
  known !! (clazz +:+ "_" +:+ c_name) = Some getter →
  resolve_getter known clazz c_name = Ok (getter, ret_type getter).
Proof. intros H. unfold resolve_getter. by rewrite H. Qed.

(** C4, as amended.  When the registry holds a function named
    [clazz + '_' + c_name], that function is the getter and its return
    type is the type of the property.  The types ['int'] and ['double']
    give the scalar accessor, the type ['string'] gives the textual
    accessor (which needs the getter's parameter 1), and every other
    return type raises the error that names it. *)
Theorem get_property_text_scalar_getter (self : SourceGenerator)
    (clazz c_name cs_name : string) (getter : _CsFunc) :
  _known_funcs self !! (clazz +:+ "_" +:+ c_name) = Some getter →
  let setter :=
    _known_funcs self !! (clazz +:+ "_set" +:+ Py.capitalize c_name) in
  let text := _get_property_text normalize self clazz c_name cs_name in
  (ret_type getter = "int" ∨ ret_type getter = "double" →
     text = Ok (normalize (scalar_property_text (ret_type getter) cs_name
                             getter setter) 0 false)) ∧
  (ret_type getter = "string" →
     text = match params getter !! 1 with
            | Some p =>
                Ok (normalize (string_property_text cs_name (p_type p)
                                 getter setter) 0 false)
            | None => Raise index_error
            end) ∧
  (ret_type getter ∉ ["int"; "double"; "string"] →
     text = Raise (unsupported_property_type (ret_type getter))).
Proof.
  intros Hgetter setter text. unfold text.
  rewrite (get_property_text_resolved _ _ _ _ _ _
             (resolve_getter_scalar _ _ _ _ Hgetter)).
  fold setter. repeat split.
  - apply property_text_scalar.
  - intros ->. apply property_text_string.
  - intros Hnot. apply property_text_unsupported; intros E;
      apply Hnot; rewrite E; repeat constructor.
Qed.

End Properties.

Lemma get_property_text_scalar_getter_witness :
  let self := example_string_getter in
  ∃ getter, _known_funcs self !! "thermo_name" = Some getter ∧
    ret_type getter = "string" ∧
    _get_property_text layout_as_is self "thermo" "name" "Name" =
      Ok (string_property_text "Name" "nuint" getter None).
Proof.
  intros self. eexists. split; [reflexivity|]. split; [reflexivity|].
  destruct (get_property_text_scalar_getter layout_as_is self
              "thermo" "name" "Name" _ eq_refl) as (_ & Hstring & _).
  exact (Hstring eq_refl).
Defined.

(** C4 as it was stated fails: the getter below is registered under
    [clazz + '_' + c_name], its return type ['string'] is neither ['int']
    nor ['double'], and the property is rendered without any error. *)
Lemma get_property_text_scalar_getter_counterexample :
  let self := example_string_getter in
  let getter :=
    mk_CsFunc "string" "thermo_name"
      [mkParam "ThermoPhaseHandle" "n"; mkParam "nuint" "len"] None in
  _known_funcs self !! ("thermo" +:+ "_" +:+ "name") = Some getter ∧
  ret_type getter ≠ "int" ∧ ret_type getter ≠ "double" ∧
  _get_property_text layout_as_is self "thermo" "name" "Name" =
    Ok (string_property_text "Name" "nuint" getter None).
Proof. repeat split; try reflexivity; discriminate. Qed.

Section TextualProperties.
Variable normalize : string → nat → bool → string.

Lemma prop_type_map_string (t : string) :
  _prop_type_map !! t = Some "string" ↔ t = "byte*".
Proof.
  unfold _prop_type_map. split.
  - intros H. apply lookup_insert_Some in H as [[_ [=]]|[_ H]].
    apply lookup_insert_Some in H as [[<- _]|[_ H]]; [done|].
    by rewrite lookup_empty in H.
  - intros ->. reflexivity.
Qed.

Lemma string_property_text_call (cs_name p_type : string) (getter : _CsFunc)
    (setter : option _CsFunc) :
  ∃ before after,
    string_property_text cs_name p_type getter setter =
      before +:+ "LibCantera." +:+ name getter +:+ "(_handle, (" +:+ p_type
        +:+ ") length, buffer));" +:+ after.
Proof.
  exists (line 16 ("public unsafe string " +:+ cs_name) +:+ line 16 "{" +:+
          line 20 "get => InteropUtil.GetString(40, (length, buffer) =>" +:+
          Py.nl +:+ Py.spaces 24),
         (line 12 "" +:+ setter_text setter +:+ closing_text).
  unfold string_property_text.
  generalize (line 16 ("public unsafe string " +:+ cs_name)) as l1.
  generalize (line 16 "{") as l2.
  generalize (line 20 "get => InteropUtil.GetString(40, (length, buffer) =>") as l3.
  generalize (line 12 "" +:+ setter_text setter +:+ closing_text) as rest.
  unfold line.
  generalize (Py.spaces 24) as indent, Py.nl as nl, (name getter) as n.
  generalize "LibCantera." as x1, "(_handle, (" as x2, ") length, buffer));" as x3.
  intros. by rewrite !app_assoc_str.
Qed.

(** C10.  For a property whose type resolves to ['string']:
    - when the getter has a parameter at index 1, the accessor is
      rendered, and its getter text calls the native getter with the
      three arguments [_handle], [length] cast to the type of that
      parameter, and [buffer];
    - when the getter has fewer than two parameters, the rendering
      raises [IndexError];
    - when the getter was found by the [_get] lookup, the type
      ['string'] was obtained from its last parameter, whose type is
      ['byte*']. *)
Theorem get_property_text_string (self : SourceGenerator)
    (clazz c_name cs_name : string) (getter : _CsFunc) :
  resolve_getter (_known_funcs self) clazz c_name = Ok (getter, "string") →
  let setter :=
    _known_funcs self !! (clazz +:+ "_set" +:+ Py.capitalize c_name) in
  let text := _get_property_text normalize self clazz c_name cs_name in
  (∀ p, params getter !! 1 = Some p →
     text = Ok (normalize (string_property_text cs_name (p_type p)
                             getter setter) 0 false) ∧
     ∃ before after,
       string_property_text cs_name (p_type p) getter setter =
         before +:+ "LibCantera." +:+ name getter +:+ "(_handle, ("
           +:+ p_type p +:+ ") length, buffer));" +:+ after) ∧
  (length (params getter) < 2 → text = Raise index_error) ∧
  ((∃ t, text = Ok t) ↔ 2 ≤ length (params getter)) ∧
  (_known_funcs self !! (clazz +:+ "_" +:+ c_name) = None →
     _known_funcs self !! (clazz +:+ "_get" +:+ Py.capitalize c_name)
       = Some getter ∧
     ∃ p, last (params getter) = Some p ∧
       _prop_type_map !! p_type p = Some "string" ∧ p_type p = "byte*").
Proof.
  intros Hres setter text. unfold text.
  rewrite (get_property_text_resolved _ _ _ _ _ _ _ Hres).
  fold setter. rewrite property_text_string.
  split; [|split; [|split]].
  - intros p Hp. rewrite Hp. split; [done|]. apply string_property_text_call.
  - intros Hlen. by rewrite lookup_ge_None_2 by lia.
  - destruct (params getter !! 1) as [p|] eqn:Hp.
    + apply lookup_lt_Some in Hp. split; [lia|eauto].
    + apply lookup_ge_None in Hp. split; [intros [t [=]]|lia].
  - intros Hnone. unfold resolve_getter, getitem in Hres.
    rewrite Hnone in Hres.
    destruct (_ !! (clazz +:+ "_get" +:+ _)) as [g|]; [|done].
    simpl in Hres. destruct (last (params g)) as [p|] eqn:Hlast; [|done].
    destruct (_prop_type_map !! p_type p) as [t|] eqn:Ht; [|done].
    simpl in Hres. injection Hres as -> ->.
    split; [done|]. exists p. split; [exact Hlast|]. split; [exact Ht|].
    by apply prop_type_map_string.
Qed.

End TextualProperties.

Lemma get_property_text_string_witness :
  let self := example_name_getter in
  ∃ getter,
    resolve_getter (_known_funcs self) "thermo" "name" = Ok (getter, "string") ∧
    params getter !! 1 = Some (mkParam "nuint" "lennm") ∧
    last (params getter) = Some (mkParam "byte*" "nm") ∧
    _get_property_text layout_as_is self "thermo" "name" "Name" =
      Ok (string_property_text "Name" "nuint" getter None).
Proof.
  intros self. eexists. split; [reflexivity|].
  split; [reflexivity|]. split; [reflexivity|].
  destruct (get_property_text_string layout_as_is self "thermo" "name" "Name"
              _ eq_refl) as (Htext & _).
  exact (proj1 (Htext _ eq_refl)).
Defined.

(** ** Declarations *)

Lemma join_app (sep : string) (l1 l2 : list string) :
  Py.join sep (l1 ++ l2) =
    Py.join sep l1
      +:+ match l1, l2 with [], _ | _, [] => "" | _, _ => sep end
      +:+ Py.join sep l2.
Proof.
  induction l1 as [|x l1 IH]; [reflexivity|].
  destruct l1 as [|y l1].
  - destruct l2 as [|z l2]; simpl.
    + induction x as [|a x IHx]; [done|]. rewrite app_cons. by rewrite <- IHx.
    + reflexivity.
  - change (Py.join sep ((x :: y :: l1) ++ l2))
      with (x +:+ sep +:+ Py.join sep ((y :: l1) ++ l2)).
    rewrite IH.
    change (Py.join sep (x :: y :: l1)) with (x +:+ sep +:+ Py.join sep (y :: l1)).
    destruct l2; by rewrite !app_assoc_str.
Qed.

Lemma app_neq_longer (s t : string) : s ≠ "" → s +:+ t ≠ t.
Proof.
  intros Hs E. apply (f_equal String.length) in E.
  rewrite length_app_str in E. destruct s; [done|]. simpl in E. lia.
Qed.

Section Declarations.
Variable normalize : string → nat → bool → string.

Lemma is_unsafe_spec (ps : list Param) :
  is_unsafe ps = true ↔ ∃ p, p ∈ ps ∧ ∃ s, p_type p = s +:+ "*".
Proof.
  unfold is_unsafe. rewrite existsb_exists. split.
  - intros (p & Hin & Hp). exists p. split; [by apply list_elem_of_In|].
    by apply endswith_spec.
  - intros (p & Hin & Hp). exists p. split; [by apply list_elem_of_In|].
    by apply endswith_spec.
Qed.

(** C9.  The declaration of a converted function is the prolog, the word
    [unsafe] exactly when some parameter has a type that ends in ['*'],
    the return type, the name and the parameter list.  The managed types
    ['string'] and ['double[]'] do not end in ['*'].  The parameter list
    renders each parameter as its type and its name, at its position:
    after the parameters before it and before those after it. *)
Theorem get_function_text_unsafe (function : _CsFunc) :
  let text := _get_function_text normalize function in
  let decl :=
    ret_type function +:+ " " +:+ name function +:+ "("
      +:+ _join_params (params function) +:+ ");" in
  let raw := ∃ p, p ∈ params function ∧ ∃ s, p_type p = s +:+ "*" in
  (text = _prolog normalize +:+ " unsafe " +:+ decl ↔ raw) ∧
  (text = _prolog normalize +:+ " " +:+ decl ↔ ¬ raw) ∧
  Py.endswith "string" "*" = false ∧
  Py.endswith "double[]" "*" = false ∧
  ∀ pre p post, params function = pre ++ p :: post →
    _join_params (params function) =
      _join_params pre +:+ match pre with [] => "" | _ => ", " end
        +:+ (p_type p +:+ " " +:+ p_name p)
        +:+ match post with [] => "" | _ => ", " end +:+ _join_params post.
Proof.
  intros text decl raw.
  assert (_prolog normalize +:+ " unsafe " +:+ decl
            ≠ _prolog normalize +:+ " " +:+ decl) as Hne.
  { intros E. apply String.app_inj in E.
    change (" " +:+ ("unsafe " +:+ decl) = " " +:+ decl) in E.
    apply String.app_inj in E. by apply app_neq_longer in E. }
  assert (raw ↔ is_unsafe (params function) = true) as Hraw
    by (symmetry; apply is_unsafe_spec).
  unfold text, _get_function_text. fold decl.
  split; [|split; [|split; [|split]]]; [| |reflexivity|reflexivity|].
  - destruct (is_unsafe (params function)).
    + split; [intros _; by apply Hraw|done].
    + split; [intros E; by destruct Hne|].
      intros Hr. by apply Hraw in Hr.
  - destruct (is_unsafe (params function)).
    + split; [intros E; by destruct Hne|].
      intros Hr. destruct Hr. by apply Hraw.
    + split; [|done]. intros _ Hr. by apply Hraw in Hr.
  - intros pre p post ->. unfold _join_params. rewrite map_app.
    rewrite join_app. f_equal.
    change (map ?f (p :: post)) with ([f p] ++ map f post).
    rewrite join_app. simpl.
    destruct pre, post; simpl; by rewrite ?app_assoc_str.
Qed.

End Declarations.

Lemma get_function_text_unsafe_witness :
  let function :=
    mk_CsFunc "int" "thermo_getName"
      [mkParam "ThermoPhaseHandle" "n"; mkParam "nuint" "lennm";
       mkParam "byte*" "nm"] None in
  _get_function_text layout_as_is function =
    _prolog layout_as_is +:+ " unsafe "
      +:+ "int thermo_getName(ThermoPhaseHandle n, nuint lennm, byte* nm);".
Proof.
  intros function.
  destruct (get_function_text_unsafe layout_as_is function) as [Hunsafe _].
  apply Hunsafe. exists (mkParam "byte*" "nm").
  split; [repeat constructor | by exists "byte"].
Defined.

(** ** Determinism *)

Lemma register_config (self : SourceGenerator) (func : _CsFunc) :
  _config (register self func) = _config self.
Proof. reflexivity. Qed.

Lemma convert_func_config (self : SourceGenerator) (parsed : Func) :
  _config (_convert_func self parsed).2 = _config self.
Proof. unfold _convert_func. by destruct (convert _ _). Qed.

Lemma convert_func_registry_independent (self1 self2 : SourceGenerator)
    (parsed : Func) :
  _config self1 = _config self2 →
  (_convert_func self1 parsed).1 = (_convert_func self2 parsed).1.
Proof.
  intros Hc. unfold _convert_func. rewrite Hc. by destruct (convert _ _).
Qed.

Lemma convert_all_registry_independent (funcs : list Func)
    (self1 self2 : SourceGenerator) :
  _config self1 = _config self2 →
  (convert_all self1 funcs).1 = (convert_all self2 funcs).1.
Proof.
  revert self1 self2. induction funcs as [|f funcs IH]; intros self1 self2 Hc;
    [reflexivity|].
  simpl.
  pose proof (convert_func_registry_independent self1 self2 f Hc) as Hf.
  pose proof (convert_func_config self1 f) as Hc1.
  pose proof (convert_func_config self2 f) as Hc2.
  destruct (_convert_func self1 f) as [[c1|e1] s1],
           (_convert_func self2 f) as [[c2|e2] s2];
    simpl in *; try discriminate; [|by injection Hf as ->].
  injection Hf as <-.
  specialize (IH s1 s2 ltac:(congruence)).
  destruct (convert_all s1 funcs) as [[cs1|e1] t1],
           (convert_all s2 funcs) as [[cs2|e2] t2];
    simpl in *; congruence.
Qed.

(** C8.  Two runs of the generator under the same configuration render a
    unit to the same declarations, function by function, and to the same
    joined text, or stop at the same exception.  The registry a run starts
    from plays no part: the runs agree when both start from the empty
    registry of [init], which is [known1 = known2 = ∅], and also when they
    start from different registries. *)
Theorem declarations_deterministic (normalize : string → nat → bool → string)
    (config : Config) (funcs : list Func) (known1 known2 : gmap string _CsFunc) :
  let run1 := mkSourceGenerator config known1 in
  let run2 := mkSourceGenerator config known2 in
  declarations normalize run1 funcs = declarations normalize run2 funcs ∧
  functions_text normalize run1 funcs = functions_text normalize run2 funcs.
Proof.
  intros run1 run2.
  assert (declarations normalize run1 funcs = declarations normalize run2 funcs)
    as Hd.
  { unfold declarations.
    by rewrite (convert_all_registry_independent funcs run1 run2). }
  split; [exact Hd|]. unfold functions_text. by rewrite Hd.
Qed.

Lemma declarations_deterministic_witness :
  let funcs :=
    [mkFunc "int" "thermo_getName"
       [mkParam "int" "n"; mkParam "size_t" "lennm"; mkParam "char*" "nm"];
     mkFunc "int" "thermo_set_TP" [mkParam "int" "n"; mkParam "double*" "vals"]] in
  declarations layout_as_is (init example_config) funcs
    = declarations layout_as_is (init example_config) funcs ∧
  declarations layout_as_is (init example_config) funcs
    = declarations layout_as_is example_name_getter funcs.
Proof.
  intros funcs. split.
  - apply (declarations_deterministic layout_as_is example_config funcs ∅ ∅).
  - apply (declarations_deterministic layout_as_is example_config funcs ∅
             (_known_funcs example_name_getter)).
Defined.

(** * Further properties of the generator *)

(** ** What a conversion keeps *)

Lemma convert_ok_inv (config : Config) (parsed : Func) (func : _CsFunc) :
  convert config parsed = Ok func →
  ∃ clazz method ret ps del,
    Py.split_once "_" (f_name parsed) = Some (clazz, method) ∧
    substitute_handle config clazz method (f_ret_type parsed) (f_params parsed)
      = Ok (ret, ps, del) ∧
    length (setter_arrays method ps) ≤ 1 ∧
    func = mk_CsFunc (map_type ret) (f_name parsed)
             (map (converted_param clazz method) ps) del.
Proof.
  intros Hconv.
  destruct (Py.split_once "_" (f_name parsed)) as [[clazz method]|] eqn:Hsplit;
    [|unfold convert in Hconv; by rewrite Hsplit in Hconv].
  destruct (substitute_handle config clazz method (f_ret_type parsed)
              (f_params parsed)) as [[[ret ps] del]|e] eqn:Hsub;
    [|unfold convert in Hconv; by rewrite Hsplit, Hsub in Hconv].
  rewrite (convert_spec _ _ _ _ _ _ _ Hsplit Hsub) in Hconv.
  exists clazz, method, ret, ps, del.
  destruct (Nat.ltb_spec 1 (length (setter_arrays method ps))); [done|].
  injection Hconv as <-.
  split; [done|]. split; [done|]. split; [lia|done].
Qed.

Lemma substitute_handle_names (config : Config) (clazz method ret ret' : string)
    (ps ps' : list Param) (del : option string) :
  substitute_handle config clazz method ret ps = Ok (ret', ps', del) →
  map p_name ps' = map p_name ps.
Proof.
  destruct (String.eqb_spec clazz "ct") as [->|Hct].
  { change (substitute_handle config "ct" method ret ps)
      with (Ok (ret, ps, @None string)).
    by (intros ?; simplify_eq). }
  destruct (handle_crosswalk config !! clazz) as [h|] eqn:Hh.
  - rewrite (substitute_handle_class _ _ _ _ h) by done.
    destruct (Py.startswith method "del"); [by (intros ?; simplify_eq)|].
    destruct (Py.startswith method "new"); [by (intros ?; simplify_eq)|].
    destruct ps as [|p0 rest]; [done|]. by (intros ?; simplify_eq).
  - unfold substitute_handle, getitem. rewrite Hh.
    apply String.eqb_neq in Hct. by rewrite Hct.
Qed.

Lemma convert_keeps_shape (config : Config) (parsed : Func) (func : _CsFunc) :
  convert config parsed = Ok func →
  name func = f_name parsed ∧
  map p_name (params func) = map p_name (f_params parsed).
Proof.
  intros Hconv.
  destruct (convert_ok_inv _ _ _ Hconv)
    as (clazz & method & ret & ps & del & _ & Hsub & _ & ->).
  apply substitute_handle_names in Hsub. simpl.
  by rewrite converted_param_name.
Qed.

(** X2.  A conversion that succeeds keeps the name of the signature, the
    number of its parameters and the names of the parameters in their
    order: only types change. *)
Theorem convert_func_keeps_shape (self self' : SourceGenerator) (parsed : Func)
    (func : _CsFunc) :
  _convert_func self parsed = (Ok func, self') →
  name func = f_name parsed ∧
  length (params func) = length (f_params parsed) ∧
  map p_name (params func) = map p_name (f_params parsed).
Proof.
  unfold _convert_func.
  destruct (convert (_config self) parsed) as [func'|e] eqn:Hconv; [|done].
  intros [= <- _].
  destruct (convert_keeps_shape _ _ _ Hconv) as [Hname Hnames].
  split; [done|]. split; [|done].
  apply (f_equal length) in Hnames. by rewrite !length_map in Hnames.
Qed.

Lemma convert_func_keeps_shape_witness :
  let parsed :=
    mkFunc "int" "thermo_getName"
      [mkParam "int" "n"; mkParam "size_t" "lennm"; mkParam "char*" "nm"] in
  ∃ func self',
    _convert_func (init example_config) parsed = (Ok func, self') ∧
    name func = "thermo_getName" ∧ length (params func) = 3 ∧
    map p_name (params func) = ["n"; "lennm"; "nm"].
Proof.
  intros parsed. eexists _, _. split; [reflexivity|].
  apply (convert_func_keeps_shape (init example_config) _ parsed _ eq_refl).
Defined.

(** X1.  After a conversion that succeeds the registry maps the name of
    the signature to the function returned, whatever it held under that
    name before; every other name and the configuration are as before. *)
Theorem convert_func_registers (self self' : SourceGenerator) (parsed : Func)
    (func : _CsFunc) :
  _convert_func self parsed = (Ok func, self') →
  _known_funcs self' !! f_name parsed = Some func ∧
  (∀ k, k ≠ f_name parsed → _known_funcs self' !! k = _known_funcs self !! k) ∧
  _config self' = _config self.
Proof.
  unfold _convert_func.
  destruct (convert (_config self) parsed) as [func'|e] eqn:Hconv; [|done].
  intros [= <- <-]. simpl.
  rewrite (proj1 (convert_keeps_shape _ _ _ Hconv)).
  split; [apply lookup_insert_eq|]. split; [|done].
  intros k Hk. by apply lookup_insert_ne.
Qed.

Lemma convert_func_registers_witness :
  let self := example_name_getter in
  let parsed := mkFunc "double" "thermo_getName" [mkParam "int" "n"] in
  ∃ old func self',
    _known_funcs self !! "thermo_getName" = Some old ∧
    _convert_func self parsed = (Ok func, self') ∧
    old ≠ func ∧
    _known_funcs self' !! "thermo_getName" = Some func.
Proof.
  intros self parsed. eexists _, _, _. split; [reflexivity|].
  split; [reflexivity|]. split; [discriminate|].
  apply (convert_func_registers self _ parsed _ eq_refl).
Defined.

Lemma map_type_not_key (t : string) : map_type t ∉ map fst _type_map.
Proof.
  unfold map_type, _type_map, crosswalk. simpl.
  repeat match goal with
  | |- context [String.eqb t ?k] =>
      destruct (String.eqb_spec t k);
      [intros H;
       repeat (apply elem_of_cons in H as [H|H]; [discriminate|]);
       by apply elem_of_nil in H|]
  end.
  intros H.
  repeat (apply elem_of_cons in H as [H|H]; [done|]).
  by apply elem_of_nil in H.
Qed.

(** X6.  The type map sends no type to one of its own keys, so mapping a
    type twice is mapping it once. *)
Theorem map_type_idempotent (t : string) :
  (map_type t ∉ map fst _type_map) ∧ map_type (map_type t) = map_type t.
Proof.
  split; [apply map_type_not_key|].
  pose proof (map_type_not_key t) as Hu.
  revert Hu. generalize (map_type t) as u. intros u Hu.
  unfold map_type, _type_map, crosswalk. simpl in Hu.
  repeat match goal with
  | |- context [String.eqb u ?k] =>
      destruct (String.eqb_spec u k) as [->|_];
      [exfalso; apply Hu; repeat constructor|]
  end.
  reflexivity.
Qed.

Lemma converted_type_not_key (clazz method : string) (p : Param) :
  converted_type clazz method p ∉ map fst _type_map.
Proof.
  unfold converted_type.
  destruct (is_setter_array method p); [|apply map_type_not_key].
  destruct (String.eqb clazz "thermo" && is_thermo_pair_setter method);
    simpl; intros H;
    repeat (apply elem_of_cons in H as [H|H]; [discriminate|]);
    by apply elem_of_nil in H.
Qed.

(** X7.  No type of a converted function is a key of the type map: the
    C types ['const char*'], ['const double*'], ['size_t'] and ['char*']
    appear neither as its return type nor as the type of a parameter. *)
Theorem convert_func_no_raw_type (self self' : SourceGenerator) (parsed : Func)
    (func : _CsFunc) :
  _convert_func self parsed = (Ok func, self') →
  (ret_type func ∉ map fst _type_map) ∧
  ∀ p, p ∈ params func → p_type p ∉ map fst _type_map.
Proof.
  unfold _convert_func.
  destruct (convert (_config self) parsed) as [func'|e] eqn:Hconv; [|done].
  intros [= <- _].
  destruct (convert_ok_inv _ _ _ Hconv)
    as (clazz & method & ret & ps & del & _ & _ & _ & ->).
  simpl. split; [apply map_type_not_key|].
  intros p [q [-> _]]%list_elem_of_fmap. apply converted_type_not_key.
Qed.

Lemma convert_func_no_raw_type_witness :
  let parsed :=
    mkFunc "const char*" "ct_getVersion"
      [mkParam "size_t" "n"; mkParam "char*" "buf"] in
  ∃ func self',
    _convert_func (init example_config) parsed = (Ok func, self') ∧
    (ret_type func ∉ map fst _type_map) ∧
    ∀ p, p ∈ params func → p_type p ∉ map fst _type_map.
Proof.
  intros parsed. eexists _, _. split; [reflexivity|].
  apply (convert_func_no_raw_type (init example_config) _ parsed _ eq_refl).
Defined.

(** X8.  A converted setter has no parameter of type ['double*']: the
    handle, an array or a pair has taken its place, or the conversion has
    raised. *)
Theorem convert_func_setter_no_double_pointer (self self' : SourceGenerator)
    (parsed : Func) (func : _CsFunc) (clazz method : string) :
  _convert_func self parsed = (Ok func, self') →
  Py.split_once "_" (f_name parsed) = Some (clazz, method) →
  Py.startswith method "set" = true →
  ∀ p, p ∈ params func → p_type p ≠ "double*".
Proof.
  unfold _convert_func.
  destruct (convert (_config self) parsed) as [func'|e] eqn:Hconv; [|done].
  intros [= <- _] Hsplit Hset.
  destruct (convert_ok_inv _ _ _ Hconv)
    as (clazz' & method' & ret & ps & del & Hsplit' & _ & _ & ->).
  rewrite Hsplit in Hsplit'. injection Hsplit' as <- <-. simpl.
  intros p [q [-> _]]%list_elem_of_fmap. simpl.
  unfold converted_type, is_setter_array. rewrite Hset, andb_true_r.
  destruct (String.eqb_spec (mapped_type q) "double*") as [_|Hne]; [|done].
  by destruct (String.eqb clazz "thermo" && is_thermo_pair_setter method).
Qed.

Lemma convert_func_setter_no_double_pointer_witness :
  let parsed :=
    mkFunc "int" "thing_setValues" [mkParam "double*" "h"; mkParam "double*" "v"] in
  ∃ func self',
    _convert_func (init example_config) parsed = (Ok func, self') ∧
    ∀ p, p ∈ params func → p_type p ≠ "double*".
Proof.
  intros parsed. eexists _, _. split; [reflexivity|].
  apply (convert_func_setter_no_double_pointer (init example_config) _ parsed _
           "thing" "setValues" eq_refl eq_refl eq_refl).
Defined.

(** ** Failures of a conversion *)

Lemma split_once_none (sep : ascii) (s : string) :
  Py.split_once sep s = None ↔ Py.has_char sep s = false.
Proof.
  induction s as [|a s IH]; simpl; [done|].
  destruct (Ascii.eqb a sep); simpl; [done|].
  destruct (Py.split_once sep s) as [[l r]|]; simpl.
  - split; [done|]. intros H. by apply IH in H.
  - split; [|done]. intros _. by apply IH.
Qed.

(** X4.  A signature whose name has no underscore cannot be split into a
    class and a method: [_convert_func] raises the [ValueError] of the
    unpacking at line 99 and registers nothing. *)
Theorem convert_func_no_underscore (self : SourceGenerator) (parsed : Func) :
  Py.has_char "_" (f_name parsed) = false →
  _convert_func self parsed =
    (Raise (ValueError "not enough values to unpack (expected 2, got 1)"), self).
Proof.
  intros Hname. apply convert_func_raise. unfold convert.
  by rewrite (proj2 (split_once_none _ _) Hname).
Qed.

Lemma convert_func_no_underscore_witness :
  let self := init example_config in
  _convert_func self (mkFunc "int" "getVersion" []) =
    (Raise (ValueError "not enough values to unpack (expected 2, got 1)"), self).
Proof.
  apply (convert_func_no_underscore (init example_config)
           (mkFunc "int" "getVersion" []) eq_refl).
Defined.

(** X5.  An instance method (registered class other than ['ct'], method
    starting with neither ["del"] nor ["new"]) without parameters has no
    handle parameter to rewrite: [_convert_func] raises [IndexError] and
    registers nothing. *)
Theorem convert_func_instance_method_no_parameters (self : SourceGenerator)
    (parsed : Func) (clazz method h : string) :
  Py.split_once "_" (f_name parsed) = Some (clazz, method) →
  clazz ≠ "ct" →
  handle_crosswalk (_config self) !! clazz = Some h →
  Py.startswith method "del" = false →
  Py.startswith method "new" = false →
  f_params parsed = [] →
  _convert_func self parsed = (Raise index_error, self).
Proof.
  intros Hsplit Hct Hh Hdel Hnew Hps. apply convert_func_raise.
  unfold convert. rewrite Hsplit.
  rewrite (substitute_handle_class _ _ _ _ h) by done.
  by rewrite Hdel, Hnew, Hps.
Qed.

Lemma convert_func_instance_method_no_parameters_witness :
  let self := init example_config in
  _convert_func self (mkFunc "int" "thing_reset" []) = (Raise index_error, self).
Proof.
  apply (convert_func_instance_method_no_parameters (init example_config)
           (mkFunc "int" "thing_reset" []) "thing" "reset" "Thing");
    [reflexivity | discriminate | reflexivity | reflexivity | reflexivity
    | reflexivity].
Defined.

(** ** Destructors *)

Lemma handle_truthy (h : string) : truthy (Some (h +:+ "Handle")) = true.
Proof.
  unfold truthy. destruct (String.eqb_spec (h +:+ "Handle") "") as [E|_]; [|done].
  by apply handle_neq in E.
Qed.

Lemma convert_del_clazz (config : Config) (parsed : Func) (func : _CsFunc) :
  convert config parsed = Ok func →
  truthy (del_clazz func) = is_destructor parsed ∧
  (is_destructor parsed = false → del_clazz func = None) ∧
  (is_destructor parsed = true →
     ∃ clazz method h,
       Py.split_once "_" (f_name parsed) = Some (clazz, method) ∧
       handle_crosswalk config !! clazz = Some h ∧
       del_clazz func = Some (h +:+ "Handle")).
Proof.
  intros Hconv.
  destruct (convert_ok_inv _ _ _ Hconv)
    as (clazz & method & ret & ps & del & Hsplit & Hsub & _ & ->).
  unfold is_destructor. rewrite Hsplit. cbn [del_clazz].
  destruct (String.eqb_spec clazz "ct") as [->|Hct].
  { change (substitute_handle config "ct" method (f_ret_type parsed)
              (f_params parsed))
      with (Ok (f_ret_type parsed, f_params parsed, @None string)) in Hsub.
    simplify_eq. done. }
  destruct (handle_crosswalk config !! clazz) as [h|] eqn:Hh.
  2: { unfold substitute_handle, getitem in Hsub. rewrite Hh in Hsub.
       apply String.eqb_neq in Hct. by rewrite Hct in Hsub. }
  rewrite (substitute_handle_class _ _ _ _ h) in Hsub by done.
  cbn [negb andb].
  destruct (Py.startswith method "del") eqn:Hdel.
  - simplify_eq. rewrite handle_truthy. split; [done|]. split; [done|].
    intros _. by exists clazz, method, h.
  - assert (del = None) as ->.
    { destruct (Py.startswith method "new"); [by simplify_eq|].
      destruct (f_params parsed); by simplify_eq. }
    done.
Qed.

(** X3.  A converted function carries a [del_clazz] exactly when its
    signature is a destructor (a class other than ['ct'] and a method that
    starts with ["del"]); the value is then the handle type of the class,
    which is never the empty string, so the test [if del_clazz] of
    [generate_source] selects exactly the destructors. *)
Theorem convert_func_del_clazz (self self' : SourceGenerator) (parsed : Func)
    (func : _CsFunc) :
  _convert_func self parsed = (Ok func, self') →
  truthy (del_clazz func) = is_destructor parsed ∧
  (is_destructor parsed = false → del_clazz func = None) ∧
  (is_destructor parsed = true →
     ∃ clazz method h,
       Py.split_once "_" (f_name parsed) = Some (clazz, method) ∧
       handle_crosswalk (_config self) !! clazz = Some h ∧
       del_clazz func = Some (h +:+ "Handle")).
Proof.
  unfold _convert_func.
  destruct (convert (_config self) parsed) as [func'|e] eqn:Hconv; [|done].
  intros [= <- _]. by apply convert_del_clazz.
Qed.

Lemma convert_func_del_clazz_witness :
  let parsed := mkFunc "int" "shape_del" [mkParam "int" "n"] in
  ∃ func self',
    _convert_func (init example_config) parsed = (Ok func, self') ∧
    truthy (del_clazz func) = true ∧ del_clazz func = Some "ShapeHandle".
Proof.
  intros parsed. eexists _, _. split; [reflexivity|].
  destruct (convert_func_del_clazz (init example_config) _ parsed _ eq_refl)
    as (Htruthy & _ & _).
  split; [exact Htruthy|reflexivity].
Defined.

(** ** Conversion and rendering together *)

Lemma existsb_map {A B : Type} (f : B → bool) (g : A → B) (l : list A) :
  existsb f (map g l) = existsb (fun x => f (g x)) l.
Proof. induction l as [|x l IH]; simpl; [done|]. by rewrite IH. Qed.

Lemma is_unsafe_converted_setter (clazz method : string) (ps : list Param) :
  Py.startswith method "set" = true →
  is_unsafe (map (converted_param clazz method) ps) =
    existsb (fun p => if String.eqb (mapped_type p) "double*"
                      then String.eqb clazz "thermo" && is_thermo_pair_setter method
                      else Py.endswith (mapped_type p) "*") ps.
Proof.
  intros Hset. unfold is_unsafe. rewrite existsb_map.
  induction ps as [|p ps IH]; [done|]. cbn [existsb]. rewrite IH. f_equal.
  unfold converted_param, converted_type, is_setter_array. cbn [p_type].
  rewrite Hset, andb_true_r.
  destruct (String.eqb (mapped_type p) "double*"); [|done].
  by destruct (String.eqb clazz "thermo" && is_thermo_pair_setter method).
Qed.

(** X9.  The declaration of a converted setter is marked [unsafe] exactly
    when, among the parameters that enter the loop, there is a ['double*']
    of a thermo pair setter or a parameter of another type whose mapped
    type ends in ['*'].  An array setter is not unsafe because of its
    ['double*'] array; a thermo pair setter with a pair always is. *)
Theorem setter_declaration_unsafe (normalize : string → nat → bool → string)
    (self self' : SourceGenerator) (parsed : Func) (func : _CsFunc)
    (clazz method ret : string) (ps : list Param) (del : option string) :
  _convert_func self parsed = (Ok func, self') →
  Py.split_once "_" (f_name parsed) = Some (clazz, method) →
  Py.startswith method "set" = true →
  substitute_handle (_config self) clazz method
    (f_ret_type parsed) (f_params parsed) = Ok (ret, ps, del) →
  let pair := String.eqb clazz "thermo" && is_thermo_pair_setter method in
  let unsafe :=
    existsb (fun p => if String.eqb (mapped_type p) "double*" then pair
                      else Py.endswith (mapped_type p) "*") ps in
  _get_function_text normalize func =
    _prolog normalize +:+ (if unsafe then " unsafe " else " ")
      +:+ ret_type func +:+ " " +:+ name func +:+ "("
      +:+ _join_params (params func) +:+ ");".
Proof.
  intros Hfunc Hsplit Hset Hsub pair unsafe.
  unfold _convert_func in Hfunc.
  destruct (convert (_config self) parsed) as [func'|e] eqn:Hconv; [|done].
  injection Hfunc as <- _.
  rewrite (convert_spec _ _ _ _ _ _ _ Hsplit Hsub) in Hconv.
  destruct (Nat.ltb 1 _); [done|]. injection Hconv as <-.
  unfold _get_function_text. cbn [params ret_type name].
  assert (is_unsafe (map (converted_param clazz method) ps) = unsafe) as ->;
    [|by destruct unsafe].
  by apply is_unsafe_converted_setter.
Qed.

Lemma setter_declaration_unsafe_witness :
  let array :=
    mkFunc "int" "thermo_setMoleFractions"
      [mkParam "int" "n"; mkParam "size_t" "len"; mkParam "double*" "x"] in
  let pair :=
    mkFunc "int" "thermo_set_TP" [mkParam "int" "n"; mkParam "double*" "vals"] in
  (∃ func self',
     _convert_func (init example_config) array = (Ok func, self') ∧
     _get_function_text layout_as_is func =
       _prolog layout_as_is +:+ " "
         +:+ "int thermo_setMoleFractions(ThermoPhaseHandle n, nuint len, double[] x);") ∧
  (∃ func self',
     _convert_func (init example_config) pair = (Ok func, self') ∧
     _get_function_text layout_as_is func =
       _prolog layout_as_is +:+ " unsafe "
         +:+ "int thermo_set_TP(ThermoPhaseHandle n, (double, double)* vals);").
Proof.
  intros array pair. split; eexists _, _; (split; [reflexivity|]).
  - exact (setter_declaration_unsafe layout_as_is (init example_config) _ array _
             "thermo" "setMoleFractions" _ _ _
             eq_refl eq_refl eq_refl eq_refl).
  - exact (setter_declaration_unsafe layout_as_is (init example_config) _ pair _
             "thermo" "set_TP" _ _ _ eq_refl eq_refl eq_refl eq_refl).
Defined.

(** ** A unit of signatures *)

Lemma convert_all_app (self : SourceGenerator) (pre post : list Func) :
  convert_all self (pre ++ post) =
    match convert_all self pre with
    | (Ok cs, self') =>
        match convert_all self' post with
        | (Ok cs', self'') => (Ok (cs ++ cs'), self'')
        | (Raise e, self'') => (Raise e, self'')
        end
    | (Raise e, self') => (Raise e, self')
    end.
Proof.
  revert self. induction pre as [|f pre IH]; intros self.
  - simpl. by destruct (convert_all self post) as [[cs|e] s].
  - simpl. destruct (_convert_func self f) as [[c|e] s]; [|done].
    rewrite IH. destruct (convert_all s pre) as [[cs|e] s']; [|done].
    by destruct (convert_all s' post) as [[cs'|e] s''].
Qed.

Lemma convert_all_ok_inv (funcs : list Func) (self self' : SourceGenerator)
    (cs : list _CsFunc) :
  convert_all self funcs = (Ok cs, self') →
  Forall2 (fun f c => convert (_config self) f = Ok c) funcs cs ∧
  _config self' = _config self ∧
  _known_funcs self' =
    foldl (fun known c => <[name c := c]> known) (_known_funcs self) cs.
Proof.
  revert self self' cs. induction funcs as [|f funcs IH]; intros self self' cs.
  - simpl. intros [= <- <-]. done.
  - simpl. unfold _convert_func at 1.
    destruct (convert (_config self) f) as [c|e] eqn:Hc; [|done].
    destruct (convert_all (register self c) funcs) as [[cs'|e] s] eqn:Hall;
      [|done].
    intros [= <- <-]. destruct (IH _ _ _ Hall) as (Hfa & Hcfg & Hknown).
    split; [by constructor|]. split; [done|]. by rewrite Hknown.
Qed.

Lemma foldl_insert_lookup (cs : list _CsFunc) (known : gmap string _CsFunc)
    (k : string) :
  k ∉ map name cs →
  foldl (fun known c => <[name c := c]> known) known cs !! k = known !! k.
Proof.
  revert known. induction cs as [|c cs IH]; intros known Hk; [done|].
  simpl. rewrite IH by (intros H; apply Hk; by right).
  apply lookup_insert_ne. intros E. apply Hk. rewrite <- E. by left.
Qed.

Lemma foldl_insert_registered (cs : list _CsFunc) (known : gmap string _CsFunc)
    (k : string) :
  k ∈ map name cs →
  ∃ c, c ∈ cs ∧ name c = k ∧
    foldl (fun known c => <[name c := c]> known) known cs !! k = Some c.
Proof.
  revert known. induction cs as [|c cs IH]; intros known Hk;
    [by apply elem_of_nil in Hk|].
  simpl. destruct (decide (k ∈ map name cs)) as [Hin|Hnot].
  - destruct (IH (<[name c := c]> known) Hin) as (c' & Hc' & Hn & Hl).
    exists c'. split; [by right|]. done.
  - apply elem_of_cons in Hk as [->|Hk]; [|done].
    exists c. split; [by left|]. split; [done|].
    rewrite foldl_insert_lookup by done. apply lookup_insert_eq.
Qed.

Lemma convert_all_names (config : Config) (funcs : list Func)
    (cs : list _CsFunc) :
  Forall2 (fun f c => convert config f = Ok c) funcs cs →
  map name cs = map f_name funcs.
Proof.
  induction 1 as [|f c funcs cs Hc _ IH]; [done|].
  simpl. by rewrite IH, (proj1 (convert_keeps_shape _ _ _ Hc)).
Qed.

Lemma convert_all_lookup (self self' : SourceGenerator) (funcs : list Func)
    (cs : list _CsFunc) (f : Func) :
  convert_all self funcs = (Ok cs, self') →
  f ∈ funcs →
  ∃ c, c ∈ cs ∧ name c = f_name f ∧ _known_funcs self' !! f_name f = Some c.
Proof.
  intros Hall Hf.
  destruct (convert_all_ok_inv _ _ _ _ Hall) as (Hfa & _ & Hknown).
  rewrite Hknown. apply foldl_insert_registered.
  rewrite (convert_all_names _ _ _ Hfa). by apply list_elem_of_fmap_2.
Qed.

(** X10.  When every signature of a unit converts, the converted functions
    come in the order of the signatures and under their names; afterwards
    the registry holds, under the name of each signature, a function
    converted from a signature of that name, names outside the unit are as
    before, and the configuration is unchanged. *)
Theorem convert_all_registry (self self' : SourceGenerator) (funcs : list Func)
    (cs : list _CsFunc) :
  convert_all self funcs = (Ok cs, self') →
  map name cs = map f_name funcs ∧
  (∀ f, f ∈ funcs →
     ∃ f' c, f' ∈ funcs ∧ f_name f' = f_name f ∧
       convert (_config self) f' = Ok c ∧
       _known_funcs self' !! f_name f = Some c) ∧
  (∀ k, k ∉ map f_name funcs → _known_funcs self' !! k = _known_funcs self !! k) ∧
  _config self' = _config self.
Proof.
  intros Hall. destruct (convert_all_ok_inv _ _ _ _ Hall) as (Hfa & Hcfg & Hknown).
  pose proof (convert_all_names _ _ _ Hfa) as Hnames.
  split; [done|]. split; [|split; [|done]].
  - intros f Hf.
    destruct (convert_all_lookup _ _ _ _ _ Hall Hf) as (c & Hc & Hn & Hl).
    apply list_elem_of_lookup in Hc as [i Hi].
    destruct (Forall2_lookup_r _ _ _ _ _ Hfa Hi) as (f' & Hf' & Hconv).
    exists f', c. split; [by eapply list_elem_of_lookup_2|].
    split; [|done].
    by rewrite <- (proj1 (convert_keeps_shape _ _ _ Hconv)).
  - intros k Hk. rewrite Hknown. apply foldl_insert_lookup. by rewrite Hnames.
Qed.

Lemma convert_all_registry_witness :
  let funcs :=
    [mkFunc "int" "shape_new" [mkParam "const char*" "id"];
     mkFunc "int" "shape_del" [mkParam "int" "n"]] in
  ∃ cs self',
    convert_all (init example_config) funcs = (Ok cs, self') ∧
    map name cs = ["shape_new"; "shape_del"] ∧
    _known_funcs self' !! "thing_new" = None.
Proof.
  intros funcs. eexists _, _. split; [reflexivity|].
  destruct (convert_all_registry (init example_config) _ funcs _ eq_refl)
    as (Hnames & _ & Hother & _).
  split; [exact Hnames|].
  rewrite (Hother "thing_new"); [reflexivity|].
  vm_compute. intros H. inversion H as [|? ? ? H']; subst.
  inversion H' as [|? ? ? H'']; subst. inversion H''.
Defined.

(** ** The registry invariant *)

Lemma registry_wf_empty : registry_wf ∅.
Proof. intros k f H. by rewrite lookup_empty in H. Qed.

Lemma registry_wf_insert (known : gmap string _CsFunc) (c : _CsFunc) :
  registry_wf known → registry_wf (<[name c := c]> known).
Proof.
  intros Hwf k f Hl. apply lookup_insert_Some in Hl as [[<- <-]|[_ Hl]]; [done|].
  by apply Hwf.
Qed.

Lemma registry_wf_convert_func (self : SourceGenerator) (parsed : Func) :
  registry_wf (_known_funcs self) →
  registry_wf (_known_funcs (_convert_func self parsed).2).
Proof.
  intros Hwf. unfold _convert_func.
  destruct (convert (_config self) parsed) as [c|e]; [|done].
  by apply registry_wf_insert.
Qed.

Lemma registry_wf_convert_all (funcs : list Func) (self : SourceGenerator) :
  registry_wf (_known_funcs self) →
  registry_wf (_known_funcs (convert_all self funcs).2).
Proof.
  revert self. induction funcs as [|f funcs IH]; intros self Hwf; [done|].
  simpl. pose proof (registry_wf_convert_func self f Hwf) as Hstep.
  destruct (_convert_func self f) as [[c|e] s]; [|done].
  specialize (IH s Hstep).
  by destruct (convert_all s funcs) as [[cs|e] s'].
Qed.

(** X11.  Every function in the registry is stored under its own name:
    this holds for the empty registry of a new generator and is kept by
    [_convert_func] and by the conversion of a whole unit, whether they
    return or raise; so it holds after any sequence of units. *)
Theorem registry_wf_invariant (config : Config) (units : list (list Func)) :
  registry_wf
    (_known_funcs
       (foldl (fun self funcs => (convert_all self funcs).2) (init config) units)).
Proof.
  assert (registry_wf (_known_funcs (init config))) as Hinit
    by apply registry_wf_empty.
  revert Hinit. generalize (init config) as self.
  induction units as [|funcs units IH]; intros self Hwf; [done|].
  simpl. apply IH. by apply registry_wf_convert_all.
Qed.

(** ** [generate_source] *)

Section GenerateSource.
Variable normalize : string → nat → bool → string.
Variable get_preamble : string.
Variable _out_dir : string.

Lemma handles_of_destructors (config : Config) (funcs : list Func)
    (cs : list _CsFunc) :
  Forall2 (fun f c => convert config f = Ok c) funcs cs →
  map fst (handles_of cs) = map f_name (filter (fun f => is_destructor f = true) funcs)
  ∧ Forall (fun h => ∃ d, h.2 = d +:+ "Handle") (handles_of cs).
Proof.
  induction 1 as [|f c funcs cs Hc _ [IH1 IH2]]; [done|].
  destruct (convert_del_clazz _ _ _ Hc) as (Htruthy & Hnone & Hsome).
  destruct (convert_keeps_shape _ _ _ Hc) as (Hname & _).
  simpl. rewrite Htruthy.
  destruct (is_destructor f) eqn:Hd.
  - rewrite filter_cons_True by done. simpl. rewrite IH1, Hname.
    split; [done|]. constructor; [|done].
    destruct (Hsome eq_refl) as (? & ? & h & _ & _ & ->). by exists h.
  - rewrite filter_cons_False by (by rewrite Hd). done.
Qed.

(** X12.  When a signature of a unit fails to convert, [generate_source]
    raises that exception and writes no file; the signatures before it
    stay registered. *)
Theorem generate_source_failure (self self' : SourceGenerator)
    (files : gmap string string) (incl_file : string)
    (pre post : list Func) (f : Func) (cs : list _CsFunc) (e : exn) :
  convert_all self pre = (Ok cs, self') →
  (_convert_func self' f).1 = Raise e →
  generate_source normalize get_preamble _out_dir self files incl_file
    (pre ++ f :: post) = (Raise e, self', files) ∧
  ∀ g, g ∈ pre → is_Some (_known_funcs self' !! f_name g).
Proof.
  intros Hpre Hf. split.
  - unfold generate_source. rewrite convert_all_app, Hpre. simpl.
    unfold _convert_func in *.
    destruct (convert (_config self') f) as [c|e']; [done|].
    simpl in Hf. by injection Hf as ->.
  - intros g Hg.
    destruct (convert_all_lookup _ _ _ _ _ Hpre Hg) as (c & _ & _ & ->).
    by eexists.
Qed.

(** X13.  When every signature of a unit converts, [generate_source]
    writes the file of the declarations, and it writes the file of the
    handles exactly when the unit has a destructor; the handles are then
    those of the destructors of the unit, in order, each a name ending in
    ['Handle'].  No other path is written. *)
Theorem generate_source_files (self self' : SourceGenerator)
    (files : gmap string string) (incl_file : string) (funcs : list Func)
    (cs : list _CsFunc) :
  convert_all self funcs = (Ok cs, self') →
  let destructors := filter (fun f => is_destructor f = true) funcs in
  let declarations :=
    interop_text normalize get_preamble
      (Py.join (Py.nl +:+ Py.nl) (map (_get_function_text normalize) cs)) in
  let handles :=
    handles_file_text normalize get_preamble
      (Py.join (Py.nl +:+ Py.nl)
         (map (_get_base_handle_text normalize) (handles_of cs))) in
  generate_source normalize get_preamble _out_dir self files incl_file funcs =
    (Ok (), self',
     match destructors with
     | [] => <[interop_path _out_dir incl_file := declarations]> files
     | _ => <[handles_path _out_dir incl_file := handles]>
              (<[interop_path _out_dir incl_file := declarations]> files)
     end) ∧
  map fst (handles_of cs) = map f_name destructors ∧
  Forall (fun h => ∃ d, h.2 = d +:+ "Handle") (handles_of cs).
Proof.
  intros Hall destructors declarations handles.
  destruct (convert_all_ok_inv _ _ _ _ Hall) as (Hfa & _ & _).
  destruct (handles_of_destructors _ _ _ Hfa) as [Hnames Hhandle].
  fold destructors in Hnames. split; [|done].
  unfold generate_source. rewrite Hall. fold declarations.
  clearbody destructors. subst handles.
  destruct (handles_of cs) as [|h hs].
  - destruct destructors; [done|discriminate].
  - destruct destructors; [discriminate|done].
Qed.

End GenerateSource.

Lemma generate_source_failure_witness :
  let self := init example_config in
  let pre := [mkFunc "int" "shape_del" [mkParam "int" "n"]] in
  let f := mkFunc "int" "kin_nReactions" [mkParam "int" "n"] in
  ∃ self',
    generate_source layout_as_is "" "out/" self ∅ "ctshape" (pre ++ [f])
      = (Raise (KeyError "kin"), self', ∅) ∧
    is_Some (_known_funcs self' !! "shape_del").
Proof.
  intros self pre f. eexists.
  destruct (generate_source_failure layout_as_is "" "out/" self _ ∅ "ctshape"
              pre [] f _ (KeyError "kin") eq_refl eq_refl) as [Hgen Hreg].
  split; [exact Hgen|].
  apply (Hreg (mkFunc "int" "shape_del" [mkParam "int" "n"])). by left.
Defined.

Lemma generate_source_files_witness :
  let self := init example_config in
  let funcs :=
    [mkFunc "int" "shape_new" [mkParam "const char*" "id"];
     mkFunc "int" "shape_del" [mkParam "int" "n"]] in
  ∃ cs self' files,
    convert_all self funcs = (Ok cs, self') ∧
    generate_source layout_as_is "" "out/" self ∅ "ctshape" funcs
      = (Ok (), self', files) ∧
    dom files = {["out/Interop.LibCantera.ctshape.g.cs";
                  "out/Interop.Handles.ctshape.g.cs"]} ∧
    handles_of cs = [("shape_del", "ShapeHandle")].
Proof.
  intros self funcs. eexists _, _, _. split; [reflexivity|].
  destruct (generate_source_files layout_as_is "" "out/" self _ ∅ "ctshape"
              funcs _ eq_refl) as (Hgen & _ & _).
  split; [exact Hgen|]. split; [|reflexivity].
  cbn [filter]. vm_compute. reflexivity.
Defined.

(** ** Property accessors and the registry *)

Section PropertyLookups.
Variable normalize : string → nat → bool → string.

(** X14.  With a registry that stores every function under its own name,
    the accessor of a scalar property ([int] or [double]) names exactly the
    two functions it looked up: the getter [clazz + '_' + c_name] and, when
    one is registered, the setter [clazz + '_set' + c_name.capitalize()];
    without a registered setter the property has no [set] accessor. *)
Theorem get_property_text_scalar_names (self : SourceGenerator)
    (clazz c_name cs_name : string) (getter : _CsFunc) :
  registry_wf (_known_funcs self) →
  _known_funcs self !! (clazz +:+ "_" +:+ c_name) = Some getter →
  ret_type getter = "int" ∨ ret_type getter = "double" →
  let setter_name := clazz +:+ "_set" +:+ Py.capitalize c_name in
  _get_property_text normalize self clazz c_name cs_name =
    Ok (normalize
          (line 16 ("public " +:+ ret_type getter +:+ " " +:+ cs_name) +:+
           line 16 "{" +:+
           line 20 "get => InteropUtil.CheckReturn(" +:+
           line 24 ("LibCantera." +:+ (clazz +:+ "_" +:+ c_name)
                    +:+ "(_handle));") +:+
           (if bool_decide (is_Some (_known_funcs self !! setter_name))
            then line 20 "set => InteropUtil.CheckReturn(" +:+
                 line 24 ("LibCantera." +:+ setter_name +:+ "(_handle, value));")
            else "") +:+
           closing_text) 0 false).
Proof.
  intros Hwf Hgetter Htype setter_name.
  rewrite (get_property_text_resolved _ _ _ _ _ _ _
             (resolve_getter_scalar _ _ _ _ Hgetter)).
  rewrite property_text_scalar by done. fold setter_name.
  unfold scalar_property_text. rewrite (Hwf _ _ Hgetter).
  destruct (_known_funcs self !! setter_name) as [s|] eqn:Hs.
  - rewrite bool_decide_eq_true_2 by by eexists.
    unfold setter_text. by rewrite (Hwf _ _ Hs).
  - rewrite bool_decide_eq_false_2 by by intros [? ?]. done.
Qed.

(** X15.  When no function is registered as [clazz + '_' + c_name], the
    getter is looked up as [clazz + '_get' + c_name.capitalize()]:
    - if that is not registered either, [KeyError] with that name;
    - if the getter has no parameter, [IndexError];
    - if its last parameter has type ['double*'], the property type is
      ['double[]'], which is never rendered: [ValueError];
    - if its last parameter has a type other than ['byte*'] and
      ['double*'], [KeyError] with that type;
    - if its last parameter has type ['byte*'], the textual accessor, which
      needs the getter's parameter 1. *)
Theorem get_property_text_array_getter (self : SourceGenerator)
    (clazz c_name cs_name : string) :
  _known_funcs self !! (clazz +:+ "_" +:+ c_name) = None →
  let getter_name := clazz +:+ "_get" +:+ Py.capitalize c_name in
  let setter :=
    _known_funcs self !! (clazz +:+ "_set" +:+ Py.capitalize c_name) in
  _get_property_text normalize self clazz c_name cs_name =
    match _known_funcs self !! getter_name with
    | None => Raise (KeyError getter_name)
    | Some getter =>
        match last (params getter) with
        | None => Raise index_error
        | Some p =>
            if String.eqb (p_type p) "double*"
            then Raise (unsupported_property_type "double[]")
            else if String.eqb (p_type p) "byte*"
            then match params getter !! 1 with
                 | Some p1 =>
                     Ok (normalize (string_property_text cs_name (p_type p1)
                                      getter setter) 0 false)
                 | None => Raise index_error
                 end
            else Raise (KeyError (p_type p))
        end
    end.
Proof.
  intros Hnone getter_name setter.
  unfold _get_property_text, resolve_getter, getitem. rewrite Hnone.
  fold getter_name.
  destruct (_known_funcs self !! getter_name) as [getter|]; [|done].
  cbn [mbind result_bind]. destruct (last (params getter)) as [p|]; [|done].
  unfold _prop_type_map.
  destruct (String.eqb_spec (p_type p) "double*") as [->|Hd].
  { rewrite lookup_insert_eq. reflexivity. }
  rewrite lookup_insert_ne by done.
  destruct (String.eqb_spec (p_type p) "byte*") as [->|Hb].
  { rewrite lookup_insert_eq. cbn [mbind result_bind]. fold setter.
    apply property_text_string. }
  rewrite lookup_insert_ne by done. by rewrite lookup_empty.
Qed.

End PropertyLookups.

Lemma get_property_text_scalar_names_witness :
  ∃ text,
    _get_property_text layout_as_is example_properties "thermo" "pressure"
      "Pressure" = Ok text ∧
    text =
      line 16 "public double Pressure" +:+ line 16 "{" +:+
      line 20 "get => InteropUtil.CheckReturn(" +:+
      line 24 "LibCantera.thermo_pressure(_handle));" +:+
      (line 20 "set => InteropUtil.CheckReturn(" +:+
       line 24 "LibCantera.thermo_setPressure(_handle, value));") +:+
      closing_text.
Proof.
  eexists. split; [|reflexivity].
  refine (get_property_text_scalar_names layout_as_is example_properties
            "thermo" "pressure" "Pressure" _ _ eq_refl (or_intror eq_refl)).
  apply registry_wf_convert_all, registry_wf_empty.
Defined.

Lemma get_property_text_array_getter_witness :
  _get_property_text layout_as_is example_properties "thermo" "moleFractions"
    "MoleFractions" = Raise (unsupported_property_type "double[]").
Proof.
  exact (get_property_text_array_getter layout_as_is example_properties
           "thermo" "moleFractions" "MoleFractions" eq_refl).
Defined.

(** ** The case of the letters of a native name *)

Lemma lower_all_fixed (s : string) : Py.lower_all s = s → has_upper s = false.
Proof.
  induction s as [|c s IH]; [done|]. simpl. intros [= Hc Hs].
  rewrite (IH Hs), orb_false_r. unfold Py.lower in Hc.
  destruct (Py.is_upper c) eqn:Hu; [|done]. exfalso.
  apply (f_equal nat_of_ascii) in Hc. unfold Py.is_upper in Hu.
  apply andb_prop in Hu as [_ Hle]. apply Nat.leb_le in Hle.
  rewrite nat_ascii_embedding in Hc by lia. lia.
Qed.

Lemma length_app_cons_neq (r : string) (c d : ascii) :
  "_" +:+ String c r ≠ "_get" +:+ String d r.
Proof.
  intros E. apply (f_equal String.length) in E.
  rewrite !length_app_str in E. simpl in E. lia.
Qed.

(** X16.  The getter of an array-like property is looked up under the
    capitalised native name, whose letters after the first are lower-cased.
    A getter registered under a name with a capital inside, such as
    [thermo_getMoleFractions], is therefore not found for the native name
    [moleFractions]: the lookup raises [KeyError] with the lower-cased
    name. *)
Theorem get_property_text_inner_capital
    (normalize : string → nat → bool → string) (config : Config)
    (clazz cs_name rest : string) (c : ascii) (getter : _CsFunc) :
  has_upper rest = true →
  let registered := clazz +:+ "_get" +:+ String (Py.upper c) rest in
  let self := mkSourceGenerator config {[ registered := getter ]} in
  _get_property_text normalize self clazz (String c rest) cs_name =
    Raise (KeyError (clazz +:+ "_get" +:+ String (Py.upper c) (Py.lower_all rest))).
Proof.
  intros Hupper registered self.
  assert (_known_funcs self !! (clazz +:+ "_" +:+ String c rest) = None) as Hscalar.
  { apply lookup_singleton_ne. unfold registered. intros E.
    apply String.app_inj in E.
    by apply (length_app_cons_neq rest c (Py.upper c)). }
  assert (_known_funcs self !! (clazz +:+ "_get" +:+ Py.capitalize (String c rest))
            = None) as Hget.
  { apply lookup_singleton_ne. unfold registered. intros E.
    apply String.app_inj in E.
    change ("_get" +:+ String ?a ?s) with (String "_" (String "g" (String "e"
      (String "t" (String a s))))) in E.
    injection E as E. symmetry in E. apply lower_all_fixed in E. congruence. }
  unfold _get_property_text, resolve_getter, getitem.
  by rewrite Hscalar, Hget.
Qed.

Lemma get_property_text_inner_capital_witness :
  let getter :=
    mk_CsFunc "int" "thermo_getMoleFractions"
      [mkParam "ThermoPhaseHandle" "n"; mkParam "nuint" "len";
       mkParam "double*" "x"] None in
  _get_property_text layout_as_is
    (mkSourceGenerator example_config {[ "thermo_getMoleFractions" := getter ]})
    "thermo" "moleFractions" "MoleFractions"
  = Raise (KeyError "thermo_getMolefractions").
Proof.
  intros getter.
  exact (get_property_text_inner_capital layout_as_is example_config
           "thermo" "MoleFractions" "oleFractions" "m" getter eq_refl).
Defined.

(** ** [finalize] *)

Section Finalize.
Variable normalize : string → nat → bool → string.
Variable get_preamble : string.
Variable _out_dir : string.

Lemma finalize_classes_app (self : SourceGenerator) (files : gmap string string)
    (pre post : list (string * list (string * string))) :
  finalize_classes normalize get_preamble _out_dir self files (pre ++ post) =
    match finalize_classes normalize get_preamble _out_dir self files pre with
    | (Ok _, files') =>
        finalize_classes normalize get_preamble _out_dir self files' post
    | (Raise e, files') => (Raise e, files')
    end.
Proof.
  revert files. induction pre as [|[clazz props] pre IH]; intros files; [done|].
  simpl. destruct (getitem _ clazz) as [name|e]; [|done].
  destruct (property_texts _ _ _ _) as [texts|e]; [|done]. apply IH.
Qed.

(** Nothing that the loop of [finalize] does removes a file. *)
Lemma finalize_classes_keeps (self : SourceGenerator)
    (classes : list (string * list (string * string)))
    (files : gmap string string) (path : string) :
  is_Some (files !! path) →
  is_Some ((finalize_classes normalize get_preamble _out_dir self files
              classes).2 !! path).
Proof.
  revert files. induction classes as [|[clazz props] classes IH];
    intros files Hin; [done|].
  simpl. destruct (getitem _ clazz) as [name|e]; [|done].
  destruct (property_texts _ _ _ _) as [texts|e]; [|done].
  apply IH. rewrite lookup_insert_is_Some.
  destruct (decide (clazz_path _out_dir name = path)); auto.
Qed.

Lemma finalize_classes_written (self : SourceGenerator)
    (classes : list (string * list (string * string)))
    (files files' : gmap string string) (clazz : string)
    (props : list (string * string)) :
  finalize_classes normalize get_preamble _out_dir self files classes
    = (Ok (), files') →
  (clazz, props) ∈ classes →
  ∃ name texts,
    handle_crosswalk (_config self) !! clazz = Some name ∧
    property_texts normalize self clazz props = Ok texts ∧
    is_Some (files' !! clazz_path _out_dir name).
Proof.
  revert files. induction classes as [|[clazz' props'] classes IH];
    intros files Hfin Hin; [by apply elem_of_nil in Hin|].
  simpl in Hfin. unfold getitem in Hfin.
  destruct (handle_crosswalk (_config self) !! clazz') as [name|] eqn:Hname;
    [|done].
  destruct (property_texts normalize self clazz' props') as [texts|e] eqn:Htexts;
    [|done].
  apply elem_of_cons in Hin as [[= -> ->]|Hin]; [|by eapply IH].
  exists name, texts. split; [done|]. split; [done|].
  pose proof (finalize_classes_keeps self classes
    (<[clazz_path _out_dir name :=
         clazz_text normalize get_preamble name
           (Py.join (Py.nl +:+ Py.nl) texts)]> files)
    (clazz_path _out_dir name)) as Hkeep.
  rewrite Hfin in Hkeep. apply Hkeep. rewrite lookup_insert_eq. by eexists.
Qed.

Lemma property_texts_length (self : SourceGenerator) (clazz : string)
    (props : list (string * string)) (texts : list string) :
  property_texts normalize self clazz props = Ok texts →
  length texts = length props.
Proof.
  revert texts. induction props as [|[c_name cs_name] props IH]; intros texts.
  - by intros [= <-].
  - simpl.
    destruct (_get_property_text normalize self clazz c_name cs_name); [|done].
    destruct (property_texts normalize self clazz props) as [texts'|]; [|done].
    intros [= <-]. simpl. by rewrite (IH texts').
Qed.

Lemma property_texts_registry (self1 self2 : SourceGenerator) (clazz : string)
    (props : list (string * string)) :
  _known_funcs self1 = _known_funcs self2 →
  property_texts normalize self1 clazz props
    = property_texts normalize self2 clazz props.
Proof.
  intros Hk. induction props as [|[c_name cs_name] props IH]; [done|].
  simpl. unfold _get_property_text. by rewrite Hk, IH.
Qed.

Lemma finalize_classes_with_classes (self : SourceGenerator)
    (other classes : list (string * list (string * string)))
    (files : gmap string string) :
  finalize_classes normalize get_preamble _out_dir (with_classes self other)
    files classes
  = finalize_classes normalize get_preamble _out_dir self files classes.
Proof.
  revert files. induction classes as [|[clazz props] classes IH];
    intros files; [done|].
  simpl. destruct (getitem _ clazz) as [name|]; [|done].
  rewrite (property_texts_registry (with_classes self other) self) by done.
  destruct (property_texts _ _ _ _); [|done]. apply IH.
Qed.

(** X17.  [finalize] first writes the file of the derived handles, and it
    removes no file: whatever happens afterwards, that file and every file
    that was there before are present when it returns or raises. *)
Theorem finalize_keeps_files (self : SourceGenerator)
    (files : gmap string string) :
  let files' := (finalize normalize get_preamble _out_dir self files).2 in
  is_Some (files' !! derived_handles_path _out_dir) ∧
  ∀ path, is_Some (files !! path) → is_Some (files' !! path).
Proof.
  unfold finalize. split.
  - apply finalize_classes_keeps. rewrite lookup_insert_eq. by eexists.
  - intros path Hin. apply finalize_classes_keeps.
    rewrite lookup_insert_is_Some.
    destruct (decide (derived_handles_path _out_dir = path)); auto.
Qed.

(** X18.  When [finalize] returns, every configured class has a handle
    name in [handle_crosswalk], each of its properties was rendered, and
    its file [out_dir + name + '.g.cs'] is written. *)
Theorem finalize_success (self : SourceGenerator)
    (files files' : gmap string string) :
  finalize normalize get_preamble _out_dir self files = (Ok (), files') →
  ∀ clazz props, (clazz, props) ∈ classes (_config self) →
    ∃ name texts,
      handle_crosswalk (_config self) !! clazz = Some name ∧
      property_texts normalize self clazz props = Ok texts ∧
      length texts = length props ∧
      is_Some (files' !! clazz_path _out_dir name).
Proof.
  unfold finalize. intros Hfin clazz props Hin.
  destruct (finalize_classes_written _ _ _ _ _ _ Hfin Hin)
    as (name & texts & Hname & Htexts & Hfile).
  exists name, texts. split; [done|]. split; [done|]. split; [|done].
  by eapply property_texts_length.
Qed.

(** X19.  When a configured class has no entry in [handle_crosswalk], or
    one of its properties cannot be rendered, [finalize] raises that
    exception and stops: the files are those that [finalize] leaves for
    the classes before it, the file of the failing class and those of the
    classes after it are not written by this call. *)
Theorem finalize_failure (self : SourceGenerator)
    (files files' : gmap string string)
    (pre post : list (string * list (string * string)))
    (clazz : string) (props : list (string * string)) (e : exn) :
  classes (_config self) = pre ++ (clazz, props) :: post →
  finalize normalize get_preamble _out_dir (with_classes self pre) files
    = (Ok (), files') →
  (getitem (handle_crosswalk (_config self)) clazz ≫= fun _ =>
   property_texts normalize self clazz props) = Raise e →
  finalize normalize get_preamble _out_dir self files = (Raise e, files').
Proof.
  intros Hclasses Hpre Hfail. unfold finalize in *.
  cbn [with_classes _config classes derived_handles] in Hpre.
  rewrite finalize_classes_with_classes in Hpre.
  rewrite Hclasses, finalize_classes_app, Hpre. simpl.
  destruct (getitem (handle_crosswalk (_config self)) clazz) as [name|e'];
    simpl in Hfail; [|by injection Hfail as ->].
  by rewrite Hfail.
Qed.

End Finalize.

Lemma finalize_success_witness :
  let self :=
    with_classes example_properties [("thermo", [("pressure", "Pressure")])] in
  ∃ files',
    finalize layout_as_is "" "out/" self ∅ = (Ok (), files') ∧
    ∃ name texts,
      handle_crosswalk (_config self) !! "thermo" = Some name ∧
      property_texts layout_as_is self "thermo" [("pressure", "Pressure")]
        = Ok texts ∧
      length texts = 1 ∧
      is_Some (files' !! clazz_path "out/" name).
Proof.
  intros self. eexists. split; [reflexivity|].
  apply (finalize_success layout_as_is "" "out/" self ∅ _ eq_refl
           "thermo" [("pressure", "Pressure")]).
  by left.
Defined.

Lemma finalize_failure_witness :
  let self :=
    with_classes example_properties
      [("thermo", [("pressure", "Pressure")]);
       ("kin", [("nReactions", "ReactionCount")]);
       ("shape", [])] in
  ∃ files',
    finalize layout_as_is "" "out/" self ∅ = (Raise (KeyError "kin"), files') ∧
    dom files' = {["out/Interop.Handles.g.cs"; "out/ThermoPhase.g.cs"]}.
Proof.
  intros self. eexists. split.
  - apply (finalize_failure layout_as_is "" "out/" self ∅ _
             [("thermo", [("pressure", "Pressure")])] [("shape", [])]
             "kin" [("nReactions", "ReactionCount")] (KeyError "kin")
             eq_refl eq_refl eq_refl).
  - vm_compute. reflexivity.
Defined.

(** ** The exceptions that can be raised *)

Lemma substitute_handle_raise (config : Config) (clazz method ret : string)
    (ps : list Param) (e : exn) :
  substitute_handle config clazz method ret ps = Raise e →
  e = KeyError clazz ∨ e = index_error.
Proof.
  destruct (String.eqb_spec clazz "ct") as [->|Hct]; [done|].
  destruct (handle_crosswalk config !! clazz) as [h|] eqn:Hh.
  - rewrite (substitute_handle_class _ _ _ _ h) by done.
    destruct (Py.startswith method "del"); [done|].
    destruct (Py.startswith method "new"); [done|].
    destruct ps; [|done]. intros [= <-]. by right.
  - unfold substitute_handle, getitem. rewrite Hh.
    apply String.eqb_neq in Hct. rewrite Hct. intros [= <-]. by left.
Qed.

(** X20.  A conversion that raises leaves the generator as it was, and
    the exception is one of four: the [ValueError] of a name without
    underscore, the [KeyError] of a class missing from [handle_crosswalk],
    the [IndexError] of an instance method without parameters, or the
    [ValueError] of a setter with more than one array. *)
Theorem convert_func_errors (self self' : SourceGenerator) (parsed : Func)
    (e : exn) :
  _convert_func self parsed = (Raise e, self') →
  self' = self ∧
  (e = ValueError "not enough values to unpack (expected 2, got 1)" ∨
   (∃ clazz method,
      Py.split_once "_" (f_name parsed) = Some (clazz, method) ∧
      e = KeyError clazz) ∨
   e = index_error ∨
   e = arity_error (f_name parsed)).
Proof.
  unfold _convert_func.
  destruct (convert (_config self) parsed) as [func|e'] eqn:Hconv; [done|].
  intros [= -> <-]. split; [done|].
  destruct (Py.split_once "_" (f_name parsed)) as [[clazz method]|] eqn:Hsplit.
  2: { unfold convert in Hconv. rewrite Hsplit in Hconv.
       injection Hconv as <-. by left. }
  destruct (substitute_handle (_config self) clazz method (f_ret_type parsed)
              (f_params parsed)) as [[[ret ps] del]|e'] eqn:Hsub.
  - rewrite (convert_spec _ _ _ _ _ _ _ Hsplit Hsub) in Hconv.
    destruct (Nat.ltb 1 _); [|done]. injection Hconv as <-. auto.
  - unfold convert in Hconv. rewrite Hsplit, Hsub in Hconv.
    injection Hconv as <-.
    destruct (substitute_handle_raise _ _ _ _ _ _ Hsub) as [->| ->]; [|auto].
    right. left. by exists clazz, method.
Qed.

Lemma convert_func_errors_witness :
  let self := example_name_getter in
  let parsed :=
    mkFunc "int" "thermo_setState"
      [mkParam "int" "n"; mkParam "double*" "a"; mkParam "double*" "b"] in
  ∃ e self',
    _convert_func self parsed = (Raise e, self') ∧ self' = self ∧
    (e = ValueError "not enough values to unpack (expected 2, got 1)" ∨
     (∃ clazz method,
        Py.split_once "_" (f_name parsed) = Some (clazz, method) ∧
        e = KeyError clazz) ∨
     e = index_error ∨
     e = arity_error (f_name parsed)).
Proof.
  intros self parsed. eexists _, _. split; [reflexivity|].
  apply (convert_func_errors self _ parsed _ eq_refl).
Defined.

Section PropertyErrors.
Variable normalize : string → nat → bool → string.

Lemma property_text_raise (prop_type cs_name : string) (getter : _CsFunc)
    (setter : option _CsFunc) (e : exn) :
  property_text normalize prop_type cs_name getter setter = Raise e →
  e = index_error ∨
  (e = unsupported_property_type prop_type ∧
   prop_type ∉ ["int"; "double"; "string"]).
Proof.
  unfold property_text.
  destruct (String.eqb_spec prop_type "int") as [->|Hi]; [done|].
  destruct (String.eqb_spec prop_type "double") as [->|Hd]; [done|].
  destruct (String.eqb_spec prop_type "string") as [->|Hs].
  - simpl. destruct (params getter !! 1); [done|]. intros [= <-]. by left.
  - simpl. intros [= <-]. right. split; [done|]. intros H.
    repeat (apply elem_of_cons in H as [H|H]; [done|]).
    by apply elem_of_nil in H.
Qed.

(** X21.  The rendering of a property raises one of four exceptions and
    no other: [KeyError] with the name of the missing getter, [IndexError]
    for a getter with too few parameters, [KeyError] with the type of the
    last parameter when [_prop_type_map] has no entry for it, or the
    [ValueError] naming a property type other than ['int'], ['double'] and
    ['string']. *)
Theorem get_property_text_errors (self : SourceGenerator)
    (clazz c_name cs_name : string) (e : exn) :
  _get_property_text normalize self clazz c_name cs_name = Raise e →
  (e = KeyError (clazz +:+ "_get" +:+ Py.capitalize c_name) ∧
   _known_funcs self !! (clazz +:+ "_" +:+ c_name) = None ∧
   _known_funcs self !! (clazz +:+ "_get" +:+ Py.capitalize c_name) = None) ∨
  e = index_error ∨
  (∃ t, e = KeyError t ∧ _prop_type_map !! t = None) ∨
  (∃ t, e = unsupported_property_type t ∧ t ∉ ["int"; "double"; "string"]).
Proof.
  unfold _get_property_text, resolve_getter, getitem.
  destruct (_known_funcs self !! (clazz +:+ "_" +:+ c_name)) as [getter|].
  { cbn [mbind result_bind]. intros H.
    destruct (property_text_raise _ _ _ _ _ H) as [->|[-> Ht]]; eauto 6. }
  destruct (_known_funcs self !! (clazz +:+ "_get" +:+ Py.capitalize c_name))
    as [getter|]; cbn [mbind result_bind].
  2: { intros [= <-]. by left. }
  destruct (last (params getter)) as [p|]; [|intros [= <-]; auto].
  destruct (_prop_type_map !! p_type p) as [t|] eqn:Ht; cbn [mbind result_bind].
  2: { intros [= <-]. right. right. left. by exists (p_type p). }
  intros H. destruct (property_text_raise _ _ _ _ _ H) as [->|[-> Hn]]; eauto 6.
Qed.

End PropertyErrors.

Lemma get_property_text_errors_witness :
  ∃ e,
    _get_property_text layout_as_is example_properties "thermo" "moleFractions"
      "MoleFractions" = Raise e ∧
    ∃ t, e = unsupported_property_type t ∧ t ∉ ["int"; "double"; "string"].
Proof.
  eexists. split; [reflexivity|].
  destruct (get_property_text_errors layout_as_is example_properties "thermo"
              "moleFractions" "MoleFractions" _ eq_refl)
    as [[H _]|[H|[(t & H & _)|H]]]; [discriminate H..|exact H].
Defined.
